(** * FramePython: a verification model of [framepython.py]

    The tool registers the [.py] files of a folder under short aliases,
    installs the dependencies the user types in, runs registered files with
    traceback capture and shells out to a bundler.  Everything it does is
    sequential orchestration of a folder listing, a JSON file, one prompt and
    a few subprocesses; the development below embeds each function of the
    script over an explicit [world] (file system, console, external tools)
    and proves the properties of its specification. *)

From Stdlib Require Import Ascii String.
From Stdlib Require Import NArith ZArith Bool Arith Lia DecimalNat List.
Import ListNotations.

Local Open Scope N_scope.
Local Open Scope list_scope.

(* ===================================================================== *)
(** * Python strings *)
(* ===================================================================== *)

(** A Python [str] is a sequence of code points (lone surrogates included,
    as [os.listdir] and [input] can produce them). *)
Definition str := list N.

(** Every code point of a [str] is below [0x110000]. *)
Definition valid_char (c : N) : bool := c <? 0x110000.
Definition valid_str (s : str) : bool := forallb valid_char s.

Fixpoint pystr (s : string) : str :=
  match s with
  | EmptyString => []
  | String a r => N_of_ascii a :: pystr r
  end.

Fixpoint str_eqb (a b : str) : bool :=
  match a, b with
  | [], [] => true
  | x :: a', y :: b' => (x =? y) && str_eqb a' b'
  | _, _ => false
  end.

(** [s.startswith(p)] *)
Fixpoint startswith (p s : str) : bool :=
  match p, s with
  | [], _ => true
  | x :: p', y :: s' => (x =? y) && startswith p' s'
  | _ :: _, [] => false
  end.

(** [s.endswith(p)] *)
Definition endswith (p s : str) : bool := startswith (rev p) (rev s).

(** [p in s] for two strings: [p] occurs as a contiguous slice of [s]. *)
Fixpoint str_contains (p s : str) : bool :=
  startswith p s ||
  match s with
  | [] => false
  | _ :: s' => str_contains p s'
  end.

(** [str.isspace] on one code point ([_PyUnicode_IsWhitespace]). *)
Definition is_space (c : N) : bool :=
  ((0x09 <=? c) && (c <=? 0x0D)) || ((0x1C <=? c) && (c <=? 0x20)) ||
  (c =? 0x85) || (c =? 0xA0) || (c =? 0x1680) ||
  ((0x2000 <=? c) && (c <=? 0x200A)) ||
  (c =? 0x2028) || (c =? 0x2029) || (c =? 0x202F) || (c =? 0x205F) ||
  (c =? 0x3000).

Fixpoint lstrip (s : str) : str :=
  match s with
  | [] => []
  | c :: r => if is_space c then lstrip r else s
  end.

Definition rstrip (s : str) : str := rev (lstrip (rev s)).

(** [s.strip()] *)
Definition strip (s : str) : str := rstrip (lstrip s).

(** [s.split(sep)] for a one-character separator: k separators give k+1
    pieces, the empty string gives one empty piece. *)
Fixpoint split (sep : N) (s : str) : list str :=
  match s with
  | [] => [[]]
  | c :: r =>
      if c =? sep then [] :: split sep r
      else match split sep r with
           | [] => [[c]]
           | p :: ps => (c :: p) :: ps
           end
  end.

(** Truthiness of a string: [if s:] holds when [s] is not empty. *)
Definition truthy (s : str) : bool :=
  match s with [] => false | _ :: _ => true end.

(** Decimal rendering of a non-negative [int], as in [f"{n}"]. *)
Fixpoint uint_digits (d : Decimal.uint) : str :=
  match d with
  | Decimal.Nil => []
  | Decimal.D0 d => 48 :: uint_digits d
  | Decimal.D1 d => 49 :: uint_digits d
  | Decimal.D2 d => 50 :: uint_digits d
  | Decimal.D3 d => 51 :: uint_digits d
  | Decimal.D4 d => 52 :: uint_digits d
  | Decimal.D5 d => 53 :: uint_digits d
  | Decimal.D6 d => 54 :: uint_digits d
  | Decimal.D7 d => 55 :: uint_digits d
  | Decimal.D8 d => 56 :: uint_digits d
  | Decimal.D9 d => 57 :: uint_digits d
  end.

Definition format_int (n : nat) : str := uint_digits (Nat.to_uint n).

(* ===================================================================== *)
(** * Python dictionaries *)
(* ===================================================================== *)

(** A [dict] with string keys keeps its items in insertion order; an
    assignment to a key already present keeps the key's position. *)
Section Dict.
Context {V : Type}.

Definition dict := list (str * V).

Fixpoint dict_get (k : str) (d : dict) : option V :=
  match d with
  | [] => None
  | (k', v) :: d' => if str_eqb k k' then Some v else dict_get k d'
  end.

(** [k in d] *)
Definition dict_mem (k : str) (d : dict) : bool :=
  match dict_get k d with Some _ => true | None => false end.

(** [d[k] = v] *)
Fixpoint dict_set (k : str) (v : V) (d : dict) : dict :=
  match d with
  | [] => [(k, v)]
  | (k', v') :: d' =>
      if str_eqb k k' then (k', v) :: d' else (k', v') :: dict_set k v d'
  end.

(** [dict(pairs)] *)
Definition dict_of_pairs (ps : list (str * V)) : dict :=
  fold_left (fun d kv => dict_set (fst kv) (snd kv) d) ps [].

Definition keys (d : dict) : list str := map fst d.
End Dict.
Arguments dict V : clear implicits.

(* ===================================================================== *)
(** * JSON values, [json.dump(data, f, indent=2)] and [json.load(f)] *)
(* ===================================================================== *)

#[local] Set Warnings "-register-all".

(** The values the [json] module reads and writes.  Strings, lists and
    dictionaries are what the tool itself stores; [null], [true], [false]
    and numbers can only come from a hand-edited file.  A number keeps the
    text of its literal (Python turns it into an [int] or a [float]). *)
Inductive json :=
| JNull
| JBool (b : bool)
| JNum (literal : str)
| JStr (s : str)
| JArr (items : list json)
| JObj (items : dict json).

(** Induction over a value and the values nested in it. *)
Section JsonInduction.
Variable P : json -> Prop.
Hypothesis Hnull : P JNull.
Hypothesis Hbool : forall b, P (JBool b).
Hypothesis Hnum : forall lit, P (JNum lit).
Hypothesis Hstr : forall s, P (JStr s).
Hypothesis Harr : forall l, Forall P l -> P (JArr l).
Hypothesis Hobj : forall d, Forall (fun kv => P (snd kv)) d -> P (JObj d).

Fixpoint json_nested_ind (v : json) : P v :=
  match v with
  | JNull => Hnull
  | JBool b => Hbool b
  | JNum lit => Hnum lit
  | JStr s => Hstr s
  | JArr l =>
      Harr l ((fix go (l : list json) : Forall P l :=
                 match l with
                 | [] => Forall_nil _
                 | x :: l' => Forall_cons x (json_nested_ind x) (go l')
                 end) l)
  | JObj d =>
      Hobj d ((fix go (d : dict json) : Forall (fun kv => P (snd kv)) d :=
                 match d with
                 | [] => Forall_nil _
                 | kv :: d' =>
                     Forall_cons kv (json_nested_ind (snd kv)) (go d')
                 end) d)
  end.
End JsonInduction.

Module Json.

(** ** Encoder: [py_encode_basestring_ascii] *)

Definition hexdigit (d : N) : N := if d <? 10 then 48 + d else 87 + d.

(** ['{0:04x}'.format(n)] for [n < 0x10000] *)
Definition hex4 (n : N) : str :=
  [hexdigit (n / 4096 mod 16); hexdigit (n / 256 mod 16);
   hexdigit (n / 16 mod 16); hexdigit (n mod 16)].

Definition u_escape (n : N) : str := 92 :: 117 :: hex4 n.

(** The replacement of one code point: [ESCAPE_DCT] first, then the
    [\uXXXX] form, with a surrogate pair above the basic plane.  Code points
    from space to tilde other than the quote and the backslash are not
    matched by [ESCAPE_ASCII] and stay as they are. *)
Definition escape_char (c : N) : str :=
  if c =? 92 then [92; 92]
  else if c =? 34 then [92; 34]
  else if (32 <=? c) && (c <=? 126) then [c]
  else if c =? 8 then [92; 98]
  else if c =? 12 then [92; 102]
  else if c =? 10 then [92; 110]
  else if c =? 13 then [92; 114]
  else if c =? 9 then [92; 116]
  else if c <? 0x10000 then u_escape c
  else
    let n := c - 0x10000 in
    let s1 := N.lor 0xd800 (N.land (N.shiftr n 10) 0x3ff) in
    let s2 := N.lor 0xdc00 (N.land n 0x3ff) in
    u_escape s1 ++ u_escape s2.

Definition encode_body (s : str) : str := flat_map escape_char s.

Definition encode_str (s : str) : str := 34 :: encode_body s ++ [34].

(** ** Encoder: [_make_iterencode] with [indent=2]

    [newline_indent] is a line feed followed by two spaces per level; the
    item separator is a comma, the key separator a colon and a space. *)

Definition newline_indent (level : nat) : str :=
  10 :: repeat 32 (2 * level)%nat.

Section Iterencode.
Variable iterencode : nat -> json -> str.

Fixpoint iterencode_list_items (level : nat) (first : bool)
    (l : list json) : str :=
  match l with
  | [] => []
  | v :: l' =>
      (if first then newline_indent level else 44 :: newline_indent level)
      ++ iterencode level v ++ iterencode_list_items level false l'
  end.

Fixpoint iterencode_dict_items (level : nat) (first : bool)
    (d : dict json) : str :=
  match d with
  | [] => []
  | (k, v) :: d' =>
      (if first then newline_indent level else 44 :: newline_indent level)
      ++ encode_str k ++ [58; 32] ++ iterencode level v
      ++ iterencode_dict_items level false d'
  end.
End Iterencode.

Fixpoint iterencode (level : nat) (o : json) : str :=
  match o with
  | JNull => pystr "null"
  | JBool true => pystr "true"
  | JBool false => pystr "false"
  | JNum lit => lit
  | JStr s => encode_str s
  | JArr [] => pystr "[]"
  | JArr l =>
      91 :: iterencode_list_items iterencode (S level) true l
         ++ newline_indent level ++ [93]
  | JObj [] => pystr "{}"
  | JObj d =>
      123 :: iterencode_dict_items iterencode (S level) true d
          ++ newline_indent level ++ [125]
  end.

(** [json.dumps(o, indent=2)]: the text [json.dump] writes. *)
Definition dumps (o : json) : str := iterencode 0 o.

(** ** Decoder: [scanstring] *)

Definition hexval (c : N) : option N :=
  if (48 <=? c) && (c <=? 57) then Some (c - 48)
  else if (97 <=? c) && (c <=? 102) then Some (c - 87)
  else if (65 <=? c) && (c <=? 70) then Some (c - 55)
  else None.

(** [_decode_uXXXX], given the text after the [u]: four hexadecimal digits. *)
Definition decode_uXXXX (s : str) : option (N * str) :=
  match s with
  | a :: b :: c :: d :: r =>
      match hexval a, hexval b, hexval c, hexval d with
      | Some x, Some y, Some z, Some t =>
          Some (4096 * x + 256 * y + 16 * z + t, r)
      | _, _, _, _ => None
      end
  | _ => None
  end.

(** The [BACKSLASH] table. *)
Definition backslash (esc : N) : option N :=
  if esc =? 34 then Some 34
  else if esc =? 92 then Some 92
  else if esc =? 47 then Some 47
  else if esc =? 98 then Some 8
  else if esc =? 102 then Some 12
  else if esc =? 110 then Some 10
  else if esc =? 114 then Some 13
  else if esc =? 116 then Some 9
  else None.

Definition is_high_surrogate (c : N) : bool := (0xd800 <=? c) && (c <=? 0xdbff).
Definition is_low_surrogate (c : N) : bool := (0xdc00 <=? c) && (c <=? 0xdfff).

Definition join_surrogates (hi lo : N) : N :=
  0x10000 + N.lor (N.shiftl (hi - 0xd800) 10) (lo - 0xdc00).

(** What follows a decoded high surrogate: a [\u] escape holding a low
    surrogate is joined with it, any other text leaves it alone, and a
    malformed [\u] escape is an error. *)
Definition after_high (uni : N) (s : str) : option (N * str) :=
  match s with
  | a :: b :: s' =>
      if (a =? 92) && (b =? 117) then
        match decode_uXXXX s' with
        | None => None
        | Some (uni2, s'') =>
            if is_low_surrogate uni2
            then Some (join_surrogates uni uni2, s'')
            else Some (uni, s)
        end
      else Some (uni, s)
  | _ => Some (uni, s)
  end.

(** One more decoded character in front of what the rest of the loop
    yields. *)
Definition prepend (ch : N) (o : option (str * str)) : option (str * str) :=
  match o with
  | None => None
  | Some (chunk, rest) => Some (ch :: chunk, rest)
  end.

(** [scanstring(s, end)] in strict mode, on the text after the opening
    quote: the decoded string and the text after the closing quote, [None]
    for a [JSONDecodeError].  Each round consumes at least one character, so
    [length s] rounds are enough. *)
Fixpoint scanstring_loop (fuel : nat) (s : str) : option (str * str) :=
  match fuel with
  | O => None
  | S fuel' =>
      match s with
      | [] => None
      | c :: r =>
          if c =? 34 then Some ([], r)
          else if c =? 92 then
            match r with
            | [] => None
            | esc :: r1 =>
                if esc =? 117 then
                  match decode_uXXXX r1 with
                  | None => None
                  | Some (uni, r2) =>
                      match (if is_high_surrogate uni then after_high uni r2
                             else Some (uni, r2)) with
                      | None => None
                      | Some (ch, r3) => prepend ch (scanstring_loop fuel' r3)
                      end
                  end
                else
                  match backslash esc with
                  | None => None
                  | Some ch => prepend ch (scanstring_loop fuel' r1)
                  end
            end
          else if c <? 32 then None
          else prepend c (scanstring_loop fuel' r)
      end
  end.

Definition scanstring (s : str) : option (str * str) :=
  scanstring_loop (length s) s.

(** ** Decoder: the scanner *)

(** [WHITESPACE.match(s, end).end()] *)
Fixpoint skip_ws (s : str) : str :=
  match s with
  | c :: r =>
      if (c =? 32) || (c =? 9) || (c =? 10) || (c =? 13) then skip_ws r else s
  | [] => []
  end.

Definition is_digit (c : N) : bool := (48 <=? c) && (c <=? 57).

Fixpoint span_digits (s : str) : str * str :=
  match s with
  | c :: r =>
      if is_digit c then let (ds, rest) := span_digits r in (c :: ds, rest)
      else ([], s)
  | [] => ([], [])
  end.

(** [NUMBER_RE]: an integer part, then an optional fraction and an optional
    exponent, each taken only when complete. *)
Definition match_number (s : str) : option (str * str) :=
  let (sign, s1) :=
    match s with
    | c :: r => if c =? 45 then ([45], r) else ([], s)
    | [] => ([], s)
    end in
  let int_part :=
    match s1 with
    | c :: r =>
        if c =? 48 then Some ([48], r)
        else if is_digit c then
          let (ds, rest) := span_digits r in Some (c :: ds, rest)
        else None
    | [] => None
    end in
  match int_part with
  | None => None
  | Some (ip, s2) =>
      let (frac, s3) :=
        match s2 with
        | c :: r =>
            if c =? 46 then
              match span_digits r with
              | ([], _) => ([], s2)
              | (ds, rest) => (46 :: ds, rest)
              end
            else ([], s2)
        | [] => ([], s2)
        end in
      let (expo, s4) :=
        match s3 with
        | c :: r =>
            if (c =? 101) || (c =? 69) then
              let (sg, r') :=
                match r with
                | d :: r'' =>
                    if (d =? 45) || (d =? 43) then ([d], r'') else ([], r)
                | [] => ([], r)
                end in
              match span_digits r' with
              | ([], _) => ([], s3)
              | (ds, rest) => (c :: sg ++ ds, rest)
              end
            else ([], s3)
        | [] => ([], s3)
        end in
      Some (sign ++ ip ++ frac ++ expo, s4)
  end.

(** The text [s] starts with the literal [lit]: the rest after it. *)
Fixpoint strip_prefix (lit s : str) : option str :=
  match lit, s with
  | [], _ => Some s
  | x :: lit', y :: s' => if x =? y then strip_prefix lit' s' else None
  | _ :: _, [] => None
  end.

Section Containers.
Variable scan_once : str -> option (json * str).

(** The loop of [JSONArray] after the opening bracket of a non-empty
    array: a value, then a closing bracket or a comma and the next
    value. *)
Fixpoint array_loop (n : nat) (s : str) : option (list json * str) :=
  match n with
  | O => None
  | S n' =>
      match scan_once s with
      | None => None
      | Some (v, r) =>
          match skip_ws r with
          | c :: r' =>
              if c =? 93 then Some ([v], r')
              else if c =? 44 then
                match array_loop n' (skip_ws r') with
                | None => None
                | Some (vs, rest) => Some (v :: vs, rest)
                end
              else None
          | [] => None
          end
      end
  end.

Definition JSONArray (s : str) : option (json * str) :=
  match skip_ws s with
  | c :: r =>
      if c =? 93 then Some (JArr [], r)
      else
        match array_loop (length s) (skip_ws s) with
        | None => None
        | Some (vs, rest) => Some (JArr vs, rest)
        end
  | [] => None
  end.

(** The loop of [JSONObject]: a quoted key, a colon, a value, then a
    closing brace or a comma and the next pair. *)
Fixpoint object_loop (n : nat) (s : str)
    : option (list (str * json) * str) :=
  match n with
  | O => None
  | S n' =>
      match s with
      | c :: r =>
          if c =? 34 then
            match scanstring r with
            | None => None
            | Some (key, r1) =>
                match skip_ws r1 with
                | c1 :: r2 =>
                    if c1 =? 58 then
                      match scan_once (skip_ws r2) with
                      | None => None
                      | Some (v, r3) =>
                          match skip_ws r3 with
                          | c2 :: r4 =>
                              if c2 =? 125 then Some ([(key, v)], r4)
                              else if c2 =? 44 then
                                match object_loop n' (skip_ws r4) with
                                | None => None
                                | Some (ps, rest) =>
                                    Some ((key, v) :: ps, rest)
                                end
                              else None
                          | [] => None
                          end
                      end
                    else None
                | [] => None
                end
            end
          else None
      | [] => None
      end
  end.

Definition JSONObject (s : str) : option (json * str) :=
  match skip_ws s with
  | c :: r =>
      if c =? 125 then Some (JObj [], r)
      else
        match object_loop (length s) (skip_ws s) with
        | None => None
        | Some (ps, rest) => Some (JObj (dict_of_pairs ps), rest)
        end
  | [] => None
  end.
End Containers.

(** [scan_once(s, idx)]: the value that starts at the head of [s] and the
    text after it.  [fuel] bounds the nesting depth. *)
Fixpoint scan_once (fuel : nat) (s : str) : option (json * str) :=
  match fuel with
  | O => None
  | S fuel' =>
      match s with
      | [] => None
      | c :: r =>
          if c =? 34 then
            match scanstring r with
            | None => None
            | Some (v, rest) => Some (JStr v, rest)
            end
          else if c =? 123 then JSONObject (scan_once fuel') r
          else if c =? 91 then JSONArray (scan_once fuel') r
          else
            match strip_prefix (pystr "null") s with
            | Some rest => Some (JNull, rest)
            | None =>
            match strip_prefix (pystr "true") s with
            | Some rest => Some (JBool true, rest)
            | None =>
            match strip_prefix (pystr "false") s with
            | Some rest => Some (JBool false, rest)
            | None =>
            match match_number s with
            | Some (lit, rest) => Some (JNum lit, rest)
            | None =>
            match strip_prefix (pystr "NaN") s with
            | Some rest => Some (JNum (pystr "NaN"), rest)
            | None =>
            match strip_prefix (pystr "Infinity") s with
            | Some rest => Some (JNum (pystr "Infinity"), rest)
            | None =>
            match strip_prefix (pystr "-Infinity") s with
            | Some rest => Some (JNum (pystr "-Infinity"), rest)
            | None => None
            end end end end end end end
      end
  end.

(** [json.loads(s)]: a leading byte order mark is refused, white space is
    allowed around the one value, anything after it is "Extra data".  [None]
    stands for a [JSONDecodeError]. *)
Definition loads (s : str) : option json :=
  if startswith [0xfeff] s then None
  else
    match scan_once (S (length s)) (skip_ws s) with
    | None => None
    | Some (v, rest) =>
        match skip_ws rest with
        | [] => Some v
        | _ :: _ => None
        end
    end.

(** What [scanstring] reads back from an encoded string: a high surrogate
    followed by a low one comes back as the one code point they encode. *)
Fixpoint join_pairs (s : str) : str :=
  match s with
  | [] => []
  | c :: r =>
      match r with
      | d :: r' =>
          if is_high_surrogate c && is_low_surrogate d
          then join_surrogates c d :: join_pairs r'
          else c :: join_pairs r
      | [] => [c]
      end
  end.

(** ** What is written and what is read back *)

Fixpoint distinct (l : list str) : bool :=
  match l with
  | [] => true
  | k :: l' => negb (existsb (str_eqb k) l') && distinct l'
  end.

(** The values [save_registry] is given: strings, lists and dictionaries of
    them, with well-formed strings and with keys that stay distinct once
    written. *)
Fixpoint writable (v : json) : bool :=
  match v with
  | JStr s => valid_str s
  | JArr l => forallb writable l
  | JObj d =>
      distinct (map (fun kv => join_pairs (fst kv)) d)
      && forallb (fun kv => valid_str (fst kv) && writable (snd kv)) d
  | _ => false
  end.

(** The value [json.load] returns for the text [json.dump] wrote for [v]. *)
Fixpoint normalize (v : json) : json :=
  match v with
  | JStr s => JStr (join_pairs s)
  | JArr l => JArr (map normalize l)
  | JObj d => JObj (map (fun kv => (join_pairs (fst kv), normalize (snd kv))) d)
  | _ => v
  end.

(** Nesting depth of the containers of a value. *)
Fixpoint depth (v : json) : nat :=
  match v with
  | JArr l => S (fold_right (fun v acc => Nat.max (depth v) acc) 0%nat l)
  | JObj d => S (fold_right (fun kv acc => Nat.max (depth (snd kv)) acc) 0%nat d)
  | _ => 0%nat
  end.

(** The characters a written value can start with. *)
Definition opens_value (c : N) : Prop := c = 34 \/ c = 91 \/ c = 123.

(** The scanner [sc] reads the text of [x] at [level] back, whatever
    follows it. *)
Definition reads_back (sc : str -> option (json * str)) (level : nat)
    (x : json) : Prop :=
  writable x = true /\
  forall r, sc (iterencode level x ++ r) = Some (normalize x, r).

Definition reads_back_item (sc : str -> option (json * str)) (level : nat)
    (kv : str * json) : Prop :=
  valid_str (fst kv) = true /\ reads_back sc level (snd kv).

End Json.


(* ===================================================================== *)
(** * Exceptions, the world and the monad of the script *)
(* ===================================================================== *)

(** The exceptions that can travel through the script.  [SystemExit] and
    the classes gathered under [BaseExceptionOther] ([KeyboardInterrupt],
    [GeneratorExit], ...) do not derive from [Exception]; all the others
    do. *)
Inductive exn :=
| SystemExit (code : Z)
| BaseExceptionOther (name : str)
| ImportError
| ModuleNotFoundError
| CalledProcessError (returncode : Z)
| OSError
| EOFError
| JSONDecodeError
| KeyError
| TypeError
| AttributeError
| ExceptionOther (name : str).

(** [isinstance(e, Exception)] *)
Definition is_Exception (e : exn) : bool :=
  match e with
  | SystemExit _ | BaseExceptionOther _ => false
  | _ => true
  end.

(** [isinstance(e, ImportError)] *)
Definition is_ImportError (e : exn) : bool :=
  match e with
  | ImportError | ModuleNotFoundError => true
  | _ => false
  end.

(** What a [print] call (or the prompt of [input]) writes on standard
    output, one constructor per format string of the script. *)
Inductive line :=
| MsgNoProject      (* [framepython] No project registered yet. Run --register first. *)
| MsgInstalling (dep : str)      (* [framepython] Installing {dep}... *)
| MsgPrompt         (* Enter libraries (comma+space separated):  *)
| MsgRegistered     (* [framepython] Project registered! *)
| MsgListHeader     (* [framepython] Registered files: *)
| MsgListEntry (key : str) (val : json)       (*   {key} -> {val} *)
| MsgDebugging (dot : str) (filepath : json)  (* \n[framepython] Debugging {dot} ({filepath}) *)
| MsgTracebackOpen  (* ----- ERROR TRACEBACK ----- *)
| MsgTraceback (tb : str)        (* traceback.format_exc() *)
| MsgTracebackClose (* --------------------------- *)
| MsgNotRegistered (dotfile : str)            (* [framepython] {dotfile} not registered. *)
| MsgCompiling (dotfile : str) (filepath : json) (* [framepython] Compiling {dotfile} ({filepath})... *)
| MsgUsage          (* Usage: framepython --register --folder current *)
| MsgHelp.          (* parser.print_help() *)

(** The calls that leave the process: module imports, the two subprocesses
    and the execution of a registered file. *)
Inductive event :=
| EvImport (dep : str)            (* __import__(dep) *)
| EvPipInstall (dep : str)        (* python -m pip install dep *)
| EvRunPath (filepath : json)     (* runpy.run_path(filepath, run_name="__main__") *)
| EvPyInstaller (filepath : json) (* python -m PyInstaller --onefile filepath *).

Definition is_subprocess (e : event) : bool :=
  match e with
  | EvPipInstall _ | EvPyInstaller _ => true
  | _ => false
  end.

Definition is_target_run (e : event) : bool :=
  match e with
  | EvRunPath _ => true
  | _ => false
  end.

(** The state the script runs in.  The first five fields are the
    environment: they answer the calls of the script and may depend on what
    has been called before ([events]).  [registry_file] is the text of
    [REGISTRY_FILE] in the working directory, [None] while the file does not
    exist; the text the script writes is pure ASCII, so it stands for the
    bytes of the file as well. *)
Record world := mkWorld {
  listdir_env : str -> option (list str);  (* os.listdir; None: OSError *)
  input_env : option str;                  (* the line input() reads; None: EOFError *)
  import_env : list event -> str -> option exn;  (* what __import__ raises *)
  pip_env : list event -> str -> Z;        (* return code of pip install *)
  run_env : list event -> json -> option (exn * str);
                                           (* what run_path raises, with its traceback text *)
  registry_file : option str;
  stdout : list line;
  events : list event
}.

Definition set_registry_file (f : option str) (w : world) : world :=
  mkWorld (listdir_env w) (input_env w) (import_env w) (pip_env w) (run_env w)
          f (stdout w) (events w).

Definition add_stdout (l : line) (w : world) : world :=
  mkWorld (listdir_env w) (input_env w) (import_env w) (pip_env w) (run_env w)
          (registry_file w) (stdout w ++ [l]) (events w).

Definition add_event (e : event) (w : world) : world :=
  mkWorld (listdir_env w) (input_env w) (import_env w) (pip_env w) (run_env w)
          (registry_file w) (stdout w) (events w ++ [e]).

(** A statement either completes with a value or raises. *)
Inductive res (A : Type) :=
| Ok (a : A)
| Raise (e : exn).
Arguments Ok {A} a.
Arguments Raise {A} e.

Definition M (A : Type) : Type := world -> res A * world.

Definition ret {A} (a : A) : M A := fun w => (Ok a, w).
Definition raise {A} (e : exn) : M A := fun w => (Raise e, w).
Definition bind {A B} (m : M A) (k : A -> M B) : M B :=
  fun w =>
    match m w with
    | (Ok a, w') => k a w'
    | (Raise e, w') => (Raise e, w')
    end.
Definition lift {A} (r : res A) : M A := fun w => (r, w).

Declare Scope py_scope.
Delimit Scope py_scope with py.
Notation "x <- m ;; k" := (bind m (fun x => k))
  (at level 61, m at next level, right associativity) : py_scope.
Notation "m ;; k" := (bind m (fun _ => k))
  (at level 61, right associativity) : py_scope.
Local Open Scope py_scope.

Definition print (l : line) : M unit := fun w => (Ok tt, add_stdout l w).

(** The exit code the interpreter hands to the operating system: 0 after a
    normal return, the code of a [SystemExit], 1 after any other uncaught
    exception (whose traceback goes to standard error). *)
Definition exit_status {A} (r : res A) : Z :=
  match r with
  | Ok _ => 0%Z
  | Raise (SystemExit code) => code
  | Raise _ => 1%Z
  end.

(** ** Operations on loaded values *)

(** [o[k]] with a string [k]: a dictionary looks the key up; a list or a
    string wants an integer index and the other values cannot be
    subscripted. *)
Definition getitem (o : json) (k : str) : res json :=
  match o with
  | JObj d =>
      match dict_get k d with
      | Some v => Ok v
      | None => Raise KeyError
      end
  | _ => Raise TypeError
  end.

(** [k in o] with a string [k]. *)
Definition contains (o : json) (k : str) : res bool :=
  match o with
  | JObj d => Ok (dict_mem k d)
  | JArr l =>
      Ok (existsb (fun v => match v with
                            | JStr s => str_eqb s k
                            | _ => false
                            end) l)
  | JStr s => Ok (str_contains k s)
  | _ => Raise TypeError
  end.

(** [o.items()] *)
Definition items (o : json) : res (list (str * json)) :=
  match o with
  | JObj d => Ok d
  | _ => Raise AttributeError
  end.

(* ===================================================================== *)
(** * The script *)
(* ===================================================================== *)

Definition REGISTRY_KEY_FILES : str := pystr "files".
Definition REGISTRY_KEY_DEPENDENCIES : str := pystr "dependencies".

(** ** Helpers *)

Definition normalize_folder (folder : str) : str :=
  if str_eqb folder (pystr "current") then pystr "." else folder.

Definition load_registry : M json :=
  fun w =>
    match registry_file w with
    | None => (print MsgNoProject ;; raise (SystemExit 1)) w
    | Some text =>
        match Json.loads text with
        | Some data => (Ok data, w)
        | None => (Raise JSONDecodeError, w)
        end
    end.

Definition save_registry (data : json) : M unit :=
  fun w => (Ok tt, set_registry_file (Some (Json.dumps data)) w).

(** ** Dependencies *)

Definition py_import (dep : str) : M (option exn) :=
  fun w => (Ok (import_env w (events w) dep), add_event (EvImport dep) w).

(** [subprocess.check_call([sys.executable, "-m", "pip", "install", dep])] *)
Definition check_call_pip (dep : str) : M unit :=
  fun w =>
    let rc := pip_env w (events w) dep in
    let w' := add_event (EvPipInstall dep) w in
    if (rc =? 0)%Z then (Ok tt, w') else (Raise (CalledProcessError rc), w').

Fixpoint ensure_installed (deps : list str) : M unit :=
  match deps with
  | [] => ret tt
  | dep :: deps' =>
      r <- py_import dep ;;
      match r with
      | None => ensure_installed deps'
      | Some e =>
          if is_ImportError e then
            print (MsgInstalling dep) ;;
            check_call_pip dep ;;
            ensure_installed deps'
          else raise e
      end
  end.

(** ** Register *)

Definition listdir (folder : str) : M (list str) :=
  fun w =>
    match listdir_env w folder with
    | Some names => (Ok names, w)
    | None => (Raise OSError, w)
    end.

Definition input (prompt : line) : M str :=
  fun w =>
    match input_env w with
    | Some l => (Ok l, add_stdout prompt w)
    | None => (Raise EOFError, add_stdout prompt w)
    end.

Definition enumerate {A} (l : list A) : list (nat * A) :=
  combine (seq 0 (length l)) l.

(** [".FILE" if i == 0 else f".FILE{i+1}"] *)
Definition alias_key (i : nat) : str :=
  if Nat.eqb i 0 then pystr ".FILE" else pystr ".FILE" ++ format_int (i + 1).

(** The first loop of [register]: the [files] dictionary after the
    assignments [registry["files"][key] = f]. *)
Definition assign_aliases (py_files : list str) : dict json :=
  fold_left (fun files '(i, f) => dict_set (alias_key i) (JStr f) files)
            (enumerate py_files) [].

(** [[lib.strip() for lib in libs.split(",") if lib.strip()]] *)
Definition parse_deps (libs : str) : list str :=
  flat_map (fun lib => if truthy (strip lib) then [strip lib] else [])
           (split 44 libs).

(** The item the loop stores for the file [f] at index [i]. *)
Definition alias_item (p : nat * str) : str * json :=
  (alias_key (fst p), JStr (snd p)).

Definition py_sources (names : list str) : list str :=
  filter (endswith (pystr ".py")) names.

(** The dictionary [registry] at the time it is saved. *)
Definition build_registry (py_files deps : list str) : json :=
  JObj (dict_set REGISTRY_KEY_DEPENDENCIES (JArr (map JStr deps))
          [(REGISTRY_KEY_FILES, JObj (assign_aliases py_files));
           (REGISTRY_KEY_DEPENDENCIES, JArr [])]).

Definition register (folder : str) : M unit :=
  let folder := normalize_folder folder in
  names <- listdir folder ;;
  let py_files := py_sources names in
  libs <- input MsgPrompt ;;
  let deps := parse_deps libs in
  let registry := build_registry py_files deps in
  ensure_installed deps ;;
  save_registry registry ;;
  print MsgRegistered.

(** ** List *)

Fixpoint print_entries (its : list (str * json)) : M unit :=
  match its with
  | [] => ret tt
  | (key, val) :: its' => print (MsgListEntry key val) ;; print_entries its'
  end.

Definition list_files : M unit :=
  reg <- load_registry ;;
  print MsgListHeader ;;
  files <- lift (getitem reg REGISTRY_KEY_FILES) ;;
  its <- lift (items files) ;;
  print_entries its.

(** ** Debug *)

Definition run_path (filepath : json) : M (option (exn * str)) :=
  fun w => (Ok (run_env w (events w) filepath),
            add_event (EvRunPath filepath) w).

(** The body of the loop of [debug]: [except Exception] takes what derives
    from [Exception] and lets the rest through. *)
Definition debug_target (dot : str) (filepath : json) : M unit :=
  print (MsgDebugging dot filepath) ;;
  r <- run_path filepath ;;
  match r with
  | None => ret tt
  | Some (e, tb) =>
      if is_Exception e then
        print MsgTracebackOpen ;;
        print (MsgTraceback tb) ;;
        print MsgTracebackClose
      else raise e
  end.

Fixpoint debug_loop (targets : list (str * json)) : M unit :=
  match targets with
  | [] => ret tt
  | (dot, filepath) :: targets' =>
      debug_target dot filepath ;; debug_loop targets'
  end.

(** [if dotfile:] with [dotfile] a string or [None]. *)
Definition alias_given (dotfile : option str) : option str :=
  match dotfile with
  | Some s => if truthy s then Some s else None
  | None => None
  end.

Definition debug (dotfile : option str) : M unit :=
  reg <- load_registry ;;
  match alias_given dotfile with
  | Some dotfile =>
      files <- lift (getitem reg REGISTRY_KEY_FILES) ;;
      present <- lift (contains files dotfile) ;;
      if negb present then print (MsgNotRegistered dotfile)
      else
        files <- lift (getitem reg REGISTRY_KEY_FILES) ;;
        filepath <- lift (getitem files dotfile) ;;
        debug_loop [(dotfile, filepath)]
  | None =>
      files <- lift (getitem reg REGISTRY_KEY_FILES) ;;
      targets <- lift (items files) ;;
      debug_loop targets
  end.

(** ** Compile *)

(** [subprocess.run([sys.executable, "-m", "PyInstaller", "--onefile",
    filepath])]: the return code is dropped.  An argument that is not a
    string is refused with a [TypeError] before any process is started; how
    a string is encoded for the operating system is not modelled. *)
Definition run_pyinstaller (filepath : json) : M unit :=
  fun w =>
    match filepath with
    | JStr _ => (Ok tt, add_event (EvPyInstaller filepath) w)
    | _ => (Raise TypeError, w)
    end.

Definition compile_file (dotfile : str) : M unit :=
  reg <- load_registry ;;
  files <- lift (getitem reg REGISTRY_KEY_FILES) ;;
  present <- lift (contains files dotfile) ;;
  if negb present then print (MsgNotRegistered dotfile)
  else
    files <- lift (getitem reg REGISTRY_KEY_FILES) ;;
    filepath <- lift (getitem files dotfile) ;;
    print (MsgCompiling dotfile filepath) ;;
    run_pyinstaller filepath.

(** ** Main CLI *)

(** [args.debug]: [None] without the flag, the constant [True] for a bare
    [--debug], the string given otherwise. *)
Inductive debug_arg :=
| DebugNone
| DebugTrue
| DebugStr (s : str).

(** The [Namespace] that [parser.parse_args()] returns. *)
Record namespace := mkNamespace {
  ns_register : bool;
  ns_folder : option str;
  ns_list : bool;
  ns_debug : debug_arg;
  ns_compile : option str
}.

Definition empty_namespace : namespace :=
  mkNamespace false None false DebugNone None.

(** Truthiness of [args.folder] and [args.compile] (a string or [None]) and
    of [args.debug]. *)
Definition opt_truthy (o : option str) : bool :=
  match o with
  | Some s => truthy s
  | None => false
  end.

Definition debug_truthy (d : debug_arg) : bool :=
  match d with
  | DebugNone => false
  | DebugTrue => true
  | DebugStr s => truthy s
  end.

(** What the [if]/[elif] chain of [main] ends up calling. *)
Inductive action :=
| ActRegister (folder : str)       (* register(args.folder) *)
| ActUsage                         (* print("Usage: ...") *)
| ActList                          (* list_files() *)
| ActDebug (dotfile : option str)  (* debug() or debug(args.debug) *)
| ActCompile (dotfile : str)       (* compile_file(args.compile) *)
| ActHelp.                         (* parser.print_help() *)

Definition select (args : namespace) : action :=
  if ns_register args then
    match ns_folder args with
    | Some folder => if truthy folder then ActRegister folder else ActUsage
    | None => ActUsage
    end
  else if ns_list args then ActList
  else if debug_truthy (ns_debug args) then
    match ns_debug args with
    | DebugTrue => ActDebug None
    | DebugStr s => ActDebug (Some s)
    | DebugNone => ActDebug None
    end
  else
    match ns_compile args with
    | Some dotfile => if truthy dotfile then ActCompile dotfile else ActHelp
    | None => ActHelp
    end.

Definition perform (a : action) : M unit :=
  match a with
  | ActRegister folder => register folder
  | ActUsage => print MsgUsage
  | ActList => list_files
  | ActDebug dotfile => debug dotfile
  | ActCompile dotfile => compile_file dotfile
  | ActHelp => print MsgHelp
  end.

(** The body of [main] after [args = parser.parse_args()]. *)
Definition dispatch (args : namespace) : M unit := perform (select args).

(** ** The argument parser

    [parse_args] follows [argparse] for the parser that [main] builds, on
    the command lines made of the option strings written in full ([-h],
    [--help], [--register], [--folder], [--list], [--debug], [--compile]),
    their [--option=value] form and value words (empty, or not starting
    with a dash).  Abbreviated options, the [--] separator and other words
    that start with a dash are outside this fragment: [parse_args] answers
    [None] for them. *)

Inductive option_name :=
| OptHelp | OptRegister | OptFolder | OptList | OptDebug | OptCompile.

Definition option_strings : dict option_name :=
  [(pystr "-h", OptHelp); (pystr "--help", OptHelp);
   (pystr "--register", OptRegister); (pystr "--folder", OptFolder);
   (pystr "--list", OptList); (pystr "--debug", OptDebug);
   (pystr "--compile", OptCompile)].

Inductive word_class :=
| Value                                              (* a positional-looking word *)
| Opt (o : option_name) (explicit_arg : option str)  (* an option string *)
| Unmodelled.

(** [arg_string.split('=', 1)] when there is an equals sign. *)
Fixpoint split_equals (s : str) : option (str * str) :=
  match s with
  | [] => None
  | c :: r =>
      if c =? 61 then Some ([], r)
      else match split_equals r with
           | Some (a, b) => Some (c :: a, b)
           | None => None
           end
  end.

Definition classify (arg_string : str) : word_class :=
  match arg_string with
  | [] => Value
  | c :: _ =>
      if negb (c =? 45) then Value
      else
        match dict_get arg_string option_strings with
        | Some o => Opt o None
        | None =>
            match split_equals arg_string with
            | Some (option_string, explicit_arg) =>
                match dict_get option_string option_strings with
                | Some o => Opt o (Some explicit_arg)
                | None => Unmodelled
                end
            | None => Unmodelled
            end
        end
  end.

(** The outcome of [parser.parse_args()]: a namespace, the help text
    followed by [SystemExit(0)], or a usage error on standard error
    followed by [SystemExit(2)]. *)
Inductive parse_result :=
| ArgsOk (args : namespace)
| ArgsHelp
| ArgsError.

Definition with_register (ns : namespace) : namespace :=
  mkNamespace true (ns_folder ns) (ns_list ns) (ns_debug ns) (ns_compile ns).
Definition with_folder (v : str) (ns : namespace) : namespace :=
  mkNamespace (ns_register ns) (Some v) (ns_list ns) (ns_debug ns) (ns_compile ns).
Definition with_list (ns : namespace) : namespace :=
  mkNamespace (ns_register ns) (ns_folder ns) true (ns_debug ns) (ns_compile ns).
Definition with_debug (d : debug_arg) (ns : namespace) : namespace :=
  mkNamespace (ns_register ns) (ns_folder ns) (ns_list ns) d (ns_compile ns).
Definition with_compile (v : str) (ns : namespace) : namespace :=
  mkNamespace (ns_register ns) (ns_folder ns) (ns_list ns) (ns_debug ns) (Some v).

(** Words are taken from left to right.  A flag refuses an explicit value; an
    option with one argument takes its explicit value or the next word when
    that is a value; [--debug] ([nargs='?'], [const=True]) takes the next
    word when that is a value and the constant otherwise.  [-h] prints the
    help at once.  Value words that no option took make the command line
    unrecognised once all words are read. *)
Fixpoint parse_loop (ns : namespace) (extras : bool) (argv : list str)
    : option parse_result :=
  match argv with
  | [] => Some (if extras then ArgsError else ArgsOk ns)
  | word :: rest =>
      match classify word with
      | Unmodelled => None
      | Value => parse_loop ns true rest
      | Opt OptHelp None => Some ArgsHelp
      | Opt OptHelp (Some _) => Some ArgsError
      | Opt OptRegister None => parse_loop (with_register ns) extras rest
      | Opt OptRegister (Some _) => Some ArgsError
      | Opt OptList None => parse_loop (with_list ns) extras rest
      | Opt OptList (Some _) => Some ArgsError
      | Opt OptFolder (Some v) => parse_loop (with_folder v ns) extras rest
      | Opt OptCompile (Some v) => parse_loop (with_compile v ns) extras rest
      | Opt OptDebug (Some v) => parse_loop (with_debug (DebugStr v) ns) extras rest
      | Opt OptFolder None =>
          match rest with
          | [] => Some ArgsError
          | v :: rest' =>
              match classify v with
              | Value => parse_loop (with_folder v ns) extras rest'
              | Opt _ _ => Some ArgsError
              | Unmodelled => None
              end
          end
      | Opt OptCompile None =>
          match rest with
          | [] => Some ArgsError
          | v :: rest' =>
              match classify v with
              | Value => parse_loop (with_compile v ns) extras rest'
              | Opt _ _ => Some ArgsError
              | Unmodelled => None
              end
          end
      | Opt OptDebug None =>
          match rest with
          | [] => parse_loop (with_debug DebugTrue ns) extras rest
          | v :: rest' =>
              match classify v with
              | Value => parse_loop (with_debug (DebugStr v) ns) extras rest'
              | Opt _ _ => parse_loop (with_debug DebugTrue ns) extras rest
              | Unmodelled => None
              end
          end
      end
  end.

Definition parse_args (argv : list str) : option parse_result :=
  parse_loop empty_namespace false argv.

(** [main()] once the command line has been parsed. *)
Definition main_parsed (p : parse_result) : M unit :=
  match p with
  | ArgsOk args => dispatch args
  | ArgsHelp => print MsgHelp ;; raise (SystemExit 0)
  | ArgsError => raise (SystemExit 2)
  end.

(** [main()] on the words after the program name, where [parse_args] is
    defined. *)
Definition main (argv : list str) : option (M unit) :=
  option_map main_parsed (parse_args argv).

(* ===================================================================== *)
(** * The specification's vocabulary *)
(* ===================================================================== *)

(** The alias of the file at 1-based position [pos]: [.FILE] for the
    first, [.FILE<pos>] from the second on. *)
Definition spec_alias (pos : nat) : str :=
  if Nat.eqb pos 1 then pystr ".FILE" else pystr ".FILE" ++ format_int pos.

(** The [files] mapping of the specification: the n source files under the
    aliases of positions 1 to n, in enumeration order. *)
Definition spec_files (py_files : list str) : dict json :=
  combine (map spec_alias (seq 1 (length py_files))) (map JStr py_files).

(** The [dependencies] sequence of the specification: the comma-split
    entries of the input, trimmed, the empty ones dropped. *)
Definition spec_dependencies (libs : str) : list str :=
  filter truthy (map strip (split 44 libs)).

Definition spec_registry (py_files : list str) (libs : str) : json :=
  JObj [(REGISTRY_KEY_FILES, JObj (spec_files py_files));
        (REGISTRY_KEY_DEPENDENCIES, JArr (map JStr (spec_dependencies libs)))].

(** Strings of ASCII characters only. *)
Definition ascii_only (s : str) : bool := forallb (fun c => c <? 128) s.
(** Every dependency of [deps] is importable, or its import fails with an
    [ImportError] and the [pip] run that follows exits with zero, whatever
    has been called before. *)
Definition installs_cleanly (w : world) (deps : list str) : Prop :=
  forall tr dep, In dep deps ->
    match import_env w tr dep with
    | None => True
    | Some e =>
        is_ImportError e = true /\ pip_env w (tr ++ [EvImport dep]) dep = 0%Z
    end.

(** Two worlds with the same environment. *)
Definition same_env (w w' : world) : Prop :=
  listdir_env w' = listdir_env w /\ input_env w' = input_env w /\
  import_env w' = import_env w /\ pip_env w' = pip_env w /\
  run_env w' = run_env w.

(** [save(load())] *)
Definition save_load : M unit :=
  reg <- load_registry ;; save_registry reg.


(** A [SystemExit] with code [c] comes out of the code the tool runs on
    behalf of the user: an imported module or a registered file. *)
Definition env_exits (w : world) (c : Z) : Prop :=
  (exists tr dep, import_env w tr dep = Some (SystemExit c)) \/
  (exists tr filepath tb, run_env w tr filepath = Some (SystemExit c, tb)).

(** The branch of the dispatcher the specification names for a command
    line: the first flag that is set, in the order register, list, debug,
    compile, and help when none is. *)
Inductive branch := BrRegister | BrList | BrDebug | BrCompile | BrHelp.

Definition spec_branch (args : namespace) : branch :=
  if ns_register args then BrRegister
  else if ns_list args then BrList
  else if debug_truthy (ns_debug args) then BrDebug
  else if opt_truthy (ns_compile args) then BrCompile
  else BrHelp.

Definition branch_of (a : action) : branch :=
  match a with
  | ActRegister _ | ActUsage => BrRegister
  | ActList => BrList
  | ActDebug _ => BrDebug
  | ActCompile _ => BrCompile
  | ActHelp => BrHelp
  end.

(* ===================================================================== *)
(** * Further vocabulary *)
(* ===================================================================== *)

(** [sep.join(words)] *)
Fixpoint join_with (sep : str) (words : list str) : str :=
  match words with
  | [] => []
  | w :: rest =>
      match rest with
      | [] => w
      | _ :: _ => w ++ sep ++ join_with sep rest
      end
  end.

(** A dependency name with nothing to trim: not empty, no comma, no white
    space at either end. *)
Definition clean_dep (d : str) : bool :=
  truthy d && negb (existsb (N.eqb 44) d)
  && negb (is_space (hd 0 d)) && negb (is_space (last d 0)).

(** Strings and values that [json.load] returns exactly as they were
    written: well-formed strings without high surrogates, distinct keys. *)
Definition plain_str (s : str) : bool :=
  forallb (fun c => valid_char c && negb (Json.is_high_surrogate c)) s.

Fixpoint plain (v : json) : bool :=
  match v with
  | JStr s => plain_str s
  | JArr l => forallb plain l
  | JObj d =>
      Json.distinct (map fst d)
      && forallb (fun kv => plain_str (fst kv) && plain (snd kv)) d
  | _ => false
  end.



(** The calls [ensure_installed] makes. *)
Definition is_install_event (e : event) : bool :=
  match e with
  | EvImport _ | EvPipInstall _ => true
  | _ => false
  end.

(** The registry file of a project with no source file and no dependency:
    an opening brace, the two keys with an empty mapping and an empty list,
    each on a line of its own indented by two spaces, and the closing
    brace. *)
Definition empty_registry_text : str :=
  pystr "{" ++ [10]
  ++ pystr "  " ++ [34] ++ pystr "files" ++ [34] ++ pystr ": {}," ++ [10]
  ++ pystr "  " ++ [34] ++ pystr "dependencies" ++ [34] ++ pystr ": []" ++ [10]
  ++ pystr "}".

(* ===================================================================== *)
(** * Sample worlds *)
(* ===================================================================== *)

(** The registry text [register] writes for two sources and one
    dependency. *)
Definition sample_registry_text : str :=
  Json.dumps (build_registry [pystr "a.py"; pystr "b.py"] [pystr "requests"]).

(** A folder with two sources among other entries, a user who types two
    libraries, every library already importable, no registry yet. *)
Definition fresh_project : world :=
  mkWorld (fun _ => Some [pystr "a.py"; pystr "notes.txt"; pystr "b.py"])
          (Some (pystr " numpy, ,requests"))
          (fun _ _ => None) (fun _ _ => 0%Z) (fun _ _ => None)
          None [] [].

(** A registered project whose files run without raising. *)
Definition registered_project : world :=
  mkWorld (fun _ => Some [pystr "a.py"; pystr "b.py"])
          (Some (pystr "requests"))
          (fun _ _ => None) (fun _ _ => 0%Z) (fun _ _ => None)
          (Some sample_registry_text) [] [].

(** A project in which [requests] cannot be imported and [pip] exits with
    status 1; [old] is the registry file before the run. *)
Definition pip_fails (old : option str) : world :=
  mkWorld (fun _ => Some [pystr "a.py"])
          (Some (pystr "requests"))
          (fun _ _ => Some ModuleNotFoundError) (fun _ _ => 1%Z)
          (fun _ _ => None)
          old [] [].


(* ===================================================================== *)
(** * Properties *)
(* ===================================================================== *)

(** ** Strings and dictionaries *)

Lemma str_eqb_eq a b : str_eqb a b = true <-> a = b.
Proof.
  revert b. induction a as [|x a IH]; intros [|y b]; cbn; try (split; congruence).
  rewrite andb_true_iff, N.eqb_eq, IH. split; [intros [-> ->]|intros [= -> ->]]; auto.
Qed.

Lemma str_eqb_refl a : str_eqb a a = true.
Proof. now apply str_eqb_eq. Qed.

Lemma str_eqb_neq a b : str_eqb a b = false <-> a <> b.
Proof.
  rewrite <- str_eqb_eq. destruct (str_eqb a b); split; congruence.
Qed.

Lemma existsb_str_eqb k l : existsb (str_eqb k) l = true <-> In k l.
Proof.
  rewrite existsb_exists. split.
  - intros (x & Hx & E). apply str_eqb_eq in E. now subst.
  - intros H. exists k. split; [exact H|apply str_eqb_refl].
Qed.

Lemma distinct_NoDup l : Json.distinct l = true <-> NoDup l.
Proof.
  induction l as [|k l IH]; cbn.
  - split; [constructor|reflexivity].
  - rewrite andb_true_iff, negb_true_iff, IH. split.
    + intros [H1 H2]. constructor; [|exact H2].
      intros Hin. apply existsb_str_eqb in Hin. congruence.
    + intros H. inversion H as [|? ? Hn Hd]; subst. split; [|exact Hd].
      apply not_true_is_false. intros E. now apply existsb_str_eqb in E.
Qed.

Section DictFacts.
Context {V : Type}.
Implicit Types (d : dict V) (k : str) (v : V).

Lemma dict_get_In k d v : dict_get k d = Some v -> In (k, v) d.
Proof.
  induction d as [|[k' v'] d IH]; cbn; [discriminate|].
  destruct (str_eqb k k') eqn:E.
  - intros [= ->]. apply str_eqb_eq in E. subst. now left.
  - intros H. right. now apply IH.
Qed.

Lemma dict_get_None k d : dict_get k d = None <-> ~ In k (keys d).
Proof.
  induction d as [|[k' v'] d IH]; cbn.
  - tauto.
  - destruct (str_eqb k k') eqn:E.
    + apply str_eqb_eq in E. subst. split; [discriminate|]. intros H. destruct H. now left.
    + apply str_eqb_neq in E. rewrite IH. split.
      * intros H [H'|H']; [congruence|tauto].
      * tauto.
Qed.

Lemma dict_mem_In k d : dict_mem k d = true <-> In k (keys d).
Proof.
  unfold dict_mem. destruct (dict_get k d) eqn:E.
  - split; [|reflexivity]. intros _.
    apply dict_get_In in E. unfold keys. apply in_map_iff. now exists (k, v).
  - apply dict_get_None in E. split; [discriminate|tauto].
Qed.

Lemma dict_set_absent k v d :
  ~ In k (keys d) -> dict_set k v d = d ++ [(k, v)].
Proof.
  induction d as [|[k' v'] d IH]; cbn; [reflexivity|].
  intros H. destruct (str_eqb k k') eqn:E.
  - apply str_eqb_eq in E. subst. tauto.
  - rewrite IH; tauto.
Qed.

Lemma fold_dict_set_distinct (ps : list (str * V)) :
  forall acc,
    NoDup (keys (acc ++ ps)) ->
    fold_left (fun d kv => dict_set (fst kv) (snd kv) d) ps acc = acc ++ ps.
Proof.
  induction ps as [|[k v] ps IH]; intros acc H; cbn.
  - now rewrite app_nil_r.
  - rewrite dict_set_absent.
    + rewrite IH; rewrite <- app_assoc; [reflexivity|exact H].
    + unfold keys in *. rewrite map_app in H. cbn in H.
      apply NoDup_remove_2 in H. intros Hin. apply H. apply in_or_app. now left.
Qed.

Lemma dict_of_pairs_distinct (ps : list (str * V)) :
  NoDup (keys ps) -> dict_of_pairs ps = ps.
Proof. intros H. unfold dict_of_pairs. now rewrite fold_dict_set_distinct. Qed.
End DictFacts.
Module JsonFacts.
Import Json.

Lemma mod_1024_lt x : x mod 1024 < 1024.
Proof. apply N.mod_lt. lia. Qed.

Lemma land_low_zero x y k : y < 2 ^ k -> N.land (x * 2 ^ k) y = 0.
Proof.
  intros H. apply N.bits_inj. intros i. rewrite N.land_spec, N.bits_0.
  destruct (N.lt_ge_cases i k).
  - rewrite N.mul_pow2_bits_low; auto.
  - destruct (N.eq_dec y 0) as [->|Hy]. { now rewrite N.bits_0, andb_false_r. }
    rewrite (N.bits_above_log2 y i), andb_false_r; auto.
    apply N.log2_lt_pow2 in H; lia.
Qed.

Lemma lor_add_low x y k : y < 2 ^ k -> N.lor (x * 2 ^ k) y = x * 2 ^ k + y.
Proof.
  intros H. symmetry.
  rewrite N.add_nocarry_lxor by now apply land_low_zero.
  apply N.lxor_lor. now apply land_low_zero.
Qed.

(** The two halves of the surrogate pair of a code point above the basic
    plane, in arithmetic form. *)
Lemma pair_high_spec n :
  N.lor 0xd800 (N.land (N.shiftr n 10) 0x3ff) = 0xd800 + (n / 1024) mod 1024.
Proof.
  change 0x3ff with (N.ones 10). rewrite N.land_ones, N.shiftr_div_pow2.
  change (2 ^ 10) with 1024.
  change 0xd800 with (54 * 2 ^ 10). apply lor_add_low.
  change (2 ^ 10) with 1024. apply N.mod_lt. lia.
Qed.

Lemma pair_low_spec n :
  N.lor 0xdc00 (N.land n 0x3ff) = 0xdc00 + n mod 1024.
Proof.
  change 0x3ff with (N.ones 10). rewrite N.land_ones.
  change (2 ^ 10) with 1024.
  change 0xdc00 with (55 * 2 ^ 10). apply lor_add_low.
  change (2 ^ 10) with 1024. apply N.mod_lt. lia.
Qed.

Lemma join_surrogates_spec hi lo :
  is_low_surrogate lo = true ->
  join_surrogates hi lo = 0x10000 + (hi - 0xd800) * 1024 + (lo - 0xdc00).
Proof.
  unfold is_low_surrogate, join_surrogates. intros H.
  apply andb_true_iff in H. destruct H as [H1 H2].
  apply N.leb_le in H1. apply N.leb_le in H2.
  rewrite N.shiftl_mul_pow2, lor_add_low.
  - change (2 ^ 10) with 1024. lia.
  - change (2 ^ 10) with 1024. lia.
Qed.

Lemma surrogate_bounds c :
  (is_high_surrogate c = true <-> 0xd800 <= c <= 0xdbff) /\
  (is_low_surrogate c = true <-> 0xdc00 <= c <= 0xdfff).
Proof.
  unfold is_high_surrogate, is_low_surrogate.
  rewrite !andb_true_iff, !N.leb_le. tauto.
Qed.

Lemma pair_high_range x :
  x < 1024 ->
  is_high_surrogate (0xd800 + x) = true /\
  is_low_surrogate (0xd800 + x) = false /\
  0xd800 + x < 65536.
Proof.
  intros H. unfold is_high_surrogate, is_low_surrogate. repeat split.
  - apply andb_true_iff. split; apply N.leb_le; lia.
  - apply andb_false_iff. left. apply N.leb_gt. lia.
  - lia.
Qed.

Lemma pair_low_range x :
  x < 1024 -> is_low_surrogate (0xdc00 + x) = true /\ 0xdc00 + x < 65536.
Proof.
  intros H. unfold is_low_surrogate. split; [|lia].
  apply andb_true_iff. split; apply N.leb_le; lia.
Qed.

Lemma hexval_hexdigit d : d < 16 -> hexval (hexdigit d) = Some d.
Proof.
  intros H. unfold hexval, hexdigit.
  destruct (N.ltb_spec d 10).
  - replace ((48 <=? 48 + d) && (48 + d <=? 57)) with true.
    + f_equal. lia.
    + symmetry. apply andb_true_iff. split; apply N.leb_le; lia.
  - replace ((48 <=? 87 + d) && (87 + d <=? 57)) with false.
    + replace ((97 <=? 87 + d) && (87 + d <=? 102)) with true.
      * f_equal. lia.
      * symmetry. apply andb_true_iff. split; apply N.leb_le; lia.
    + symmetry. apply andb_false_iff. right. apply N.leb_gt. lia.
Qed.

Lemma decode_hex4 n r : n < 65536 -> decode_uXXXX (hex4 n ++ r) = Some (n, r).
Proof.
  intros H. unfold hex4. cbn [app decode_uXXXX].
  rewrite !hexval_hexdigit by (apply N.mod_lt; lia).
  f_equal. f_equal.
  Zify.zify. Z.to_euclidean_division_equations. lia.
Qed.

Lemma scanstring_loop_eq fuel c r :
  scanstring_loop (S fuel) (c :: r) =
  if c =? 34 then Some ([], r)
  else if c =? 92 then
    match r with
    | [] => None
    | esc :: r1 =>
        if esc =? 117 then
          match decode_uXXXX r1 with
          | None => None
          | Some (uni, r2) =>
              match (if is_high_surrogate uni then after_high uni r2
                     else Some (uni, r2)) with
              | None => None
              | Some (ch, r3) => prepend ch (scanstring_loop fuel r3)
              end
          end
        else
          match backslash esc with
          | None => None
          | Some ch => prepend ch (scanstring_loop fuel r1)
          end
    end
  else if c <? 32 then None
  else prepend c (scanstring_loop fuel r).
Proof. reflexivity. Qed.

Lemma scan_u_escape fuel n r :
  n < 65536 ->
  scanstring_loop (S fuel) (u_escape n ++ r) =
  match (if is_high_surrogate n then after_high n r else Some (n, r)) with
  | None => None
  | Some (ch, r3) => prepend ch (scanstring_loop fuel r3)
  end.
Proof.
  intros H. unfold u_escape. cbn [app]. rewrite scanstring_loop_eq.
  change (92 =? 34) with false. change (92 =? 92) with true.
  change (117 =? 117) with true. cbv iota.
  now rewrite decode_hex4.
Qed.

Lemma after_high_other uni s :
  (forall t, s <> 92 :: 117 :: t) -> after_high uni s = Some (uni, s).
Proof.
  intros H. destruct s as [|a [|b t]]; try reflexivity.
  unfold after_high.
  destruct (N.eqb_spec a 92); [|reflexivity].
  destruct (N.eqb_spec b 117); [|reflexivity].
  subst. now destruct (H t).
Qed.

Lemma after_high_u uni d r :
  d < 65536 ->
  after_high uni (u_escape d ++ r) =
  if is_low_surrogate d then Some (join_surrogates uni d, r)
  else Some (uni, u_escape d ++ r).
Proof.
  intros H. unfold u_escape. cbn [app]. unfold after_high.
  change ((92 =? 92) && (117 =? 117)) with true. cbv iota.
  now rewrite decode_hex4.
Qed.

Lemma escape_char_surrogate c :
  0xd800 <= c <= 0xdfff -> escape_char c = u_escape c.
Proof.
  intros H. unfold escape_char.
  repeat match goal with
  | |- context [N.eqb c ?k] => destruct (N.eqb_spec c k); [lia|]
  end.
  destruct (N.leb_spec 32 c), (N.leb_spec c 126); cbn [andb]; try lia.
  destruct (N.ltb_spec c 0x10000); [reflexivity|lia].
Qed.

Lemma scan_escape_char fuel c r :
  valid_char c = true -> is_high_surrogate c = false ->
  scanstring_loop (S fuel) (escape_char c ++ r) =
  prepend c (scanstring_loop fuel r).
Proof.
  intros Hv Hh. apply N.ltb_lt in Hv. unfold escape_char.
  destruct (N.eqb_spec c 92) as [->|N92]; [reflexivity|].
  destruct (N.eqb_spec c 34) as [->|N34]; [reflexivity|].
  destruct (N.leb_spec 32 c) as [L32|L32];
    [destruct (N.leb_spec c 126) as [L126|L126]|]; cbn [andb].
  - cbn [app]. rewrite scanstring_loop_eq.
    apply N.eqb_neq in N92, N34. rewrite N92, N34.
    destruct (N.ltb_spec c 32); [lia|reflexivity].
  - repeat match goal with
    | |- context [N.eqb c ?k] => destruct (N.eqb_spec c k); [lia|]
    end.
    destruct (N.ltb_spec c 0x10000) as [Lb|Lb].
    + rewrite scan_u_escape by lia. now rewrite Hh.
    + cbv zeta. rewrite pair_high_spec, pair_low_spec, <- app_assoc.
      destruct (pair_high_range _ (mod_1024_lt ((c - 65536) / 1024)))
        as (Hhi & _ & Hhb).
      destruct (pair_low_range _ (mod_1024_lt (c - 65536))) as (Hlow & Hlb).
      rewrite scan_u_escape, Hhi by exact Hhb.
      rewrite after_high_u by exact Hlb.
      rewrite Hlow, join_surrogates_spec by exact Hlow.
      f_equal.
      Zify.zify. Z.to_euclidean_division_equations. lia.
  - repeat match goal with
    | |- context [N.eqb c ?k] =>
        destruct (N.eqb_spec c k) as [->|?]; [reflexivity|]
    end.
    destruct (N.ltb_spec c 0x10000) as [Lb|Lb]; [|lia].
    rewrite scan_u_escape by lia. now rewrite Hh.
Qed.

Lemma after_high_escape_not_low uni d r :
  valid_char d = true -> is_low_surrogate d = false ->
  after_high uni (escape_char d ++ r) = Some (uni, escape_char d ++ r).
Proof.
  intros Hv Hl. apply N.ltb_lt in Hv. unfold escape_char.
  destruct (N.eqb_spec d 92) as [->|N92];
    [apply after_high_other; intros t; discriminate|].
  destruct (N.eqb_spec d 34) as [->|N34];
    [apply after_high_other; intros t; discriminate|].
  destruct ((32 <=? d) && (d <=? 126)).
  { apply after_high_other. intros t E. injection E as E _. contradiction. }
  repeat match goal with
  | |- context [N.eqb d ?k] =>
      destruct (N.eqb_spec d k) as [->|?];
        [apply after_high_other; intros t; discriminate|]
  end.
  destruct (N.ltb_spec d 0x10000) as [Lb|Lb].
  - rewrite after_high_u by lia. now rewrite Hl.
  - cbv zeta. rewrite pair_high_spec, <- app_assoc.
    destruct (pair_high_range _ (mod_1024_lt ((d - 65536) / 1024)))
      as (_ & Hnl & Hhb).
    rewrite after_high_u by exact Hhb. now rewrite Hnl.
Qed.

Lemma escape_char_length c : (1 <= length (escape_char c))%nat.
Proof.
  unfold escape_char.
  repeat match goal with
  | |- context [if ?b then _ else _] => destruct b
  end; cbn; lia.
Qed.

Lemma u_escape_length n : length (u_escape n) = 6%nat.
Proof. reflexivity. Qed.

Lemma encode_body_cons c s :
  encode_body (c :: s) = escape_char c ++ encode_body s.
Proof. reflexivity. Qed.

Lemma join_pairs_not_high c s :
  is_high_surrogate c = false -> join_pairs (c :: s) = c :: join_pairs s.
Proof. intros H. cbn. rewrite H. now destruct s. Qed.

(** Reading an encoded string back. *)
Lemma scanstring_loop_encode n :
  forall s fuel rest,
    (length s <= n)%nat -> valid_str s = true ->
    (length (encode_body s) < fuel)%nat ->
    scanstring_loop fuel (encode_body s ++ 34 :: rest)
    = Some (join_pairs s, rest).
Proof.
  induction n as [|n IH]; intros s fuel rest Hn Hv Hf.
  - destruct s; [|cbn in Hn; lia]. destruct fuel; [cbn in Hf; lia|].
    reflexivity.
  - destruct s as [|c s]; [destruct fuel; [cbn in Hf; lia|reflexivity]|].
    cbn [valid_str forallb] in Hv. apply andb_true_iff in Hv.
    destruct Hv as [Hc Hs]. fold (valid_str s) in Hs.
    rewrite encode_body_cons in Hf |- *. rewrite length_app in Hf.
    pose proof (escape_char_length c) as Hlen.
    destruct fuel as [|fuel]; [lia|].
    rewrite <- app_assoc.
    destruct (is_high_surrogate c) eqn:Hh.
    + assert (Hb : 0xd800 <= c <= 0xdbff) by now apply surrogate_bounds.
      rewrite escape_char_surrogate in Hf |- * by lia.
      rewrite u_escape_length in Hf.
      rewrite scan_u_escape, Hh by lia.
      destruct s as [|d s].
      * cbn [encode_body flat_map app].
        rewrite after_high_other by (intros t; discriminate).
        destruct fuel; [lia|]. reflexivity.
      * cbn [valid_str forallb] in Hs. apply andb_true_iff in Hs.
        destruct Hs as [Hd Hs]. fold (valid_str s) in Hs.
        rewrite encode_body_cons in Hf |- *. rewrite length_app in Hf.
        pose proof (escape_char_length d) as Hlen'.
        rewrite <- app_assoc.
        destruct (is_low_surrogate d) eqn:Hl.
        -- assert (Hb' : 0xdc00 <= d <= 0xdfff) by now apply surrogate_bounds.
           rewrite escape_char_surrogate by lia.
           rewrite after_high_u, Hl by lia.
           rewrite (IH s fuel rest); [|cbn in Hn; lia|exact Hs|lia].
           cbn [join_pairs prepend]. now rewrite Hh, Hl.
        -- rewrite after_high_escape_not_low by assumption.
           rewrite app_assoc, <- encode_body_cons.
           rewrite (IH (d :: s) fuel rest).
           ++ cbn [join_pairs prepend]. now rewrite Hh, Hl.
           ++ cbn in Hn |- *; lia.
           ++ cbn [valid_str forallb]. now rewrite Hd.
           ++ rewrite encode_body_cons, length_app. lia.
    + rewrite scan_escape_char by assumption.
      rewrite (IH s fuel rest); [|cbn in Hn; lia|exact Hs|lia].
      now rewrite join_pairs_not_high.
Qed.

Lemma escape_char_joined c d :
  is_high_surrogate c = true -> is_low_surrogate d = true ->
  escape_char (join_surrogates c d) = u_escape c ++ u_escape d.
Proof.
  intros Hc Hd. rewrite join_surrogates_spec by exact Hd.
  apply surrogate_bounds in Hc. apply surrogate_bounds in Hd.
  set (j := 65536 + (c - 55296) * 1024 + (d - 56320)).
  assert (Hj : 65536 <= j < 1114112) by (unfold j; lia).
  unfold escape_char.
  repeat match goal with
  | |- context [N.eqb j ?k] => destruct (N.eqb_spec j k); [lia|]
  end.
  destruct (N.leb_spec 32 j), (N.leb_spec j 126); cbn [andb]; try lia.
  destruct (N.ltb_spec j 0x10000); [lia|].
  cbv zeta. rewrite pair_high_spec, pair_low_spec.
  replace (55296 + ((j - 65536) / 1024) mod 1024) with c.
  - replace (56320 + (j - 65536) mod 1024) with d; [reflexivity|].
    unfold j. Zify.zify. Z.to_euclidean_division_equations. lia.
  - unfold j. Zify.zify. Z.to_euclidean_division_equations. lia.
Qed.

Lemma encode_join_pairs_bounded n :
  forall s, (length s <= n)%nat -> encode_body (join_pairs s) = encode_body s.
Proof.
  induction n as [|n IH]; intros s Hn.
  - destruct s; [reflexivity|cbn in Hn; lia].
  - destruct s as [|c [|d s]]; try reflexivity.
    cbn [join_pairs].
    destruct (is_high_surrogate c) eqn:Hc, (is_low_surrogate d) eqn:Hd;
      cbn [andb].
    + rewrite !encode_body_cons, escape_char_joined by assumption.
      rewrite IH by (cbn in Hn; lia).
      apply surrogate_bounds in Hc. apply surrogate_bounds in Hd.
      rewrite !escape_char_surrogate by lia. now rewrite <- app_assoc.
    + rewrite (encode_body_cons c (d :: s)), <- (IH (d :: s)) by (cbn in Hn |- *; lia).
      reflexivity.
    + rewrite (encode_body_cons c (d :: s)), <- (IH (d :: s)) by (cbn in Hn |- *; lia).
      reflexivity.
    + rewrite (encode_body_cons c (d :: s)), <- (IH (d :: s)) by (cbn in Hn |- *; lia).
      reflexivity.
Qed.

Lemma encode_join_pairs s : encode_body (join_pairs s) = encode_body s.
Proof. now apply (encode_join_pairs_bounded (length s)). Qed.

Lemma encode_str_join_pairs s : encode_str (join_pairs s) = encode_str s.
Proof. unfold encode_str. now rewrite encode_join_pairs. Qed.

Lemma scanstring_encode s rest :
  valid_str s = true ->
  scanstring (encode_body s ++ 34 :: rest) = Some (join_pairs s, rest).
Proof.
  intros Hv. unfold scanstring.
  apply (scanstring_loop_encode (length s)); auto.
  rewrite length_app. cbn. lia.
Qed.

(** ** Reading values back *)


Lemma skip_ws_newline_indent level s :
  skip_ws (newline_indent level ++ s) = skip_ws s.
Proof.
  unfold newline_indent. cbn [app skip_ws].
  change ((10 =? 32) || (10 =? 9) || (10 =? 10) || (10 =? 13)) with true.
  cbv iota. induction (2 * level)%nat as [|n IH]; [reflexivity|].
  cbn [repeat app skip_ws]. exact IH.
Qed.



Lemma skip_ws_opens c t : opens_value c -> skip_ws (c :: t) = c :: t.
Proof. intros [-> | [-> | ->]]; reflexivity. Qed.

Lemma iterencode_head v level :
  writable v = true ->
  exists c t, iterencode level v = c :: t /\ opens_value c.
Proof.
  unfold opens_value.
  destruct v as [| | |s|[|x l]|[|[k x] d]]; cbn [writable]; try discriminate;
    intros _; cbn [iterencode encode_str pystr];
    (do 2 eexists; split; [reflexivity|tauto]).
Qed.

Lemma scan_once_str fuel r :
  scan_once (S fuel) (34 :: r) =
  match scanstring r with
  | None => None
  | Some (v, rest) => Some (JStr v, rest)
  end.
Proof. reflexivity. Qed.

Lemma scan_once_obj fuel r :
  scan_once (S fuel) (123 :: r) = JSONObject (scan_once fuel) r.
Proof. reflexivity. Qed.

Lemma scan_once_arr fuel r :
  scan_once (S fuel) (91 :: r) = JSONArray (scan_once fuel) r.
Proof. reflexivity. Qed.

Section Loops.
Variable sc : str -> option (json * str).
Variable level : nat.
Variable close : str.
Hypothesis close_ws : forall s, skip_ws (close ++ s) = skip_ws s.


Lemma array_loop_items rest :
  forall l v n,
    reads_back sc level v -> Forall (reads_back sc level) l -> (length l < n)%nat ->
    array_loop sc n
      (iterencode level v
       ++ iterencode_list_items iterencode level false l
       ++ close ++ 93 :: rest)
    = Some (normalize v :: map normalize l, rest).
Proof.
  induction l as [|x l IH]; intros v n [Hw Hv] Hl Hn;
    (destruct n as [|n]; [cbn in Hn; lia|]); cbn [array_loop].
  - rewrite Hv. cbn [iterencode_list_items app]. rewrite close_ws.
    reflexivity.
  - rewrite Hv. cbn [iterencode_list_items app skip_ws].
    change ((44 =? 32) || (44 =? 9) || (44 =? 10) || (44 =? 13)) with false.
    cbv iota. change (44 =? 93) with false. change (44 =? 44) with true.
    cbv iota.
    inversion Hl as [|? ? Hx Hl']; subst.
    rewrite <- !app_assoc, skip_ws_newline_indent.
    destruct (iterencode_head x level (proj1 Hx)) as (c & t & E & Hc).
    rewrite E. cbn [app]. rewrite skip_ws_opens by exact Hc.
    change (c :: t ++ ?r) with ((c :: t) ++ r). rewrite <- E.
    rewrite (IH x n Hx Hl') by (cbn in Hn; lia).
    reflexivity.
Qed.


Lemma object_loop_step n k v tail :
  reads_back_item sc level (k, v) ->
  object_loop sc (S n)
    (encode_str k ++ [58; 32] ++ iterencode level v ++ tail)
  = match skip_ws tail with
    | c2 :: r4 =>
        if c2 =? 125 then Some ([(join_pairs k, normalize v)], r4)
        else if c2 =? 44 then
          match object_loop sc n (skip_ws r4) with
          | None => None
          | Some (ps, rest) => Some ((join_pairs k, normalize v) :: ps, rest)
          end
        else None
    | [] => None
    end.
Proof.
  intros [Hk [Hw Hv]]. cbn [fst snd] in *.
  unfold encode_str. cbn [app object_loop].
  change (34 =? 34) with true. cbv iota.
  rewrite <- app_assoc. cbn [app].
  rewrite scanstring_encode by exact Hk.
  change (skip_ws (58 :: ?x)) with (58 :: x). cbv iota.
  change (58 =? 58) with true. cbv iota.
  change (skip_ws (32 :: ?x)) with (skip_ws x).
  destruct (iterencode_head v level Hw) as (c & t & E & Hc).
  rewrite E. cbn [app]. rewrite skip_ws_opens by exact Hc.
  change (c :: t ++ ?r) with ((c :: t) ++ r). rewrite <- E.
  now rewrite Hv.
Qed.

Lemma object_loop_items rest :
  forall d k v n,
    reads_back_item sc level (k, v) ->
    Forall (reads_back_item sc level) d ->
    (length d < n)%nat ->
    object_loop sc n
      (encode_str k ++ [58; 32] ++ iterencode level v
       ++ iterencode_dict_items iterencode level false d
       ++ close ++ 125 :: rest)
    = Some ((join_pairs k, normalize v)
              :: map (fun kv => (join_pairs (fst kv), normalize (snd kv))) d,
            rest).
Proof.
  induction d as [|[k' x] d IH]; intros k v n Hkv Hd Hn;
    (destruct n as [|n]; [cbn in Hn; lia|]);
    rewrite object_loop_step by exact Hkv.
  - cbn [iterencode_dict_items app]. rewrite close_ws. reflexivity.
  - cbn [iterencode_dict_items app].
    change (skip_ws (44 :: ?x)) with (44 :: x). cbv iota.
    change (44 =? 125) with false. change (44 =? 44) with true. cbv iota.
    inversion Hd as [|? ? Hx Hd']; subst.
    rewrite <- !app_assoc, skip_ws_newline_indent.
    unfold encode_str at 1. cbn [app].
    change (skip_ws (34 :: ?x)) with (34 :: x).
    pose proof (IH k' x n Hx Hd') as IH'.
    unfold encode_str at 1 in IH'. cbn [app] in IH'.
    rewrite <- !app_assoc in IH'. cbn [app] in IH'.
    rewrite <- !app_assoc. cbn [app].
    rewrite IH' by (cbn in Hn; lia).
    reflexivity.
Qed.
End Loops.

Lemma list_items_length (f : nat -> json -> str) level first l :
  (length l <= length (iterencode_list_items f level first l))%nat.
Proof.
  revert first. induction l as [|x l IH]; intros first; cbn [iterencode_list_items length];
    [lia|].
  rewrite !length_app. specialize (IH false).
  destruct first; cbn [length newline_indent]; lia.
Qed.

Lemma dict_items_length (f : nat -> json -> str) level first (d : dict json) :
  (length d <= length (iterencode_dict_items f level first d))%nat.
Proof.
  revert first. induction d as [|[k x] d IH]; intros first;
    cbn [iterencode_dict_items length]; [lia|].
  rewrite !length_app. specialize (IH false).
  destruct first; cbn [length newline_indent]; lia.
Qed.

Lemma depth_le_list x l :
  In x l ->
  (depth x <= fold_right (fun v acc => Nat.max (depth v) acc) 0 l)%nat.
Proof.
  induction l as [|y l IH]; cbn [In fold_right]; [tauto|].
  intros [->|H]; [lia|]. specialize (IH H). lia.
Qed.

Lemma depth_le_dict kv (d : dict json) :
  In kv d ->
  (depth (snd kv)
   <= fold_right (fun kv acc => Nat.max (depth (snd kv)) acc) 0 d)%nat.
Proof.
  induction d as [|y d IH]; cbn [In fold_right]; [tauto|].
  intros [->|H]; [lia|]. specialize (IH H). lia.
Qed.

(** The scanner reads the text of a writable value back, whatever follows
    it, as soon as the fuel exceeds the nesting depth. *)
Theorem scan_once_iterencode v :
  writable v = true ->
  forall level fuel rest,
    (depth v < fuel)%nat ->
    scan_once fuel (iterencode level v ++ rest) = Some (normalize v, rest).
Proof.
  induction v as [| | |s|l IH|d IH] using json_nested_ind;
    cbn [writable]; try discriminate; intros Hw level fuel rest Hf;
    (destruct fuel as [|fuel]; [lia|]).
  - (* string *)
    cbn [iterencode normalize]. unfold encode_str. cbn [app].
    rewrite scan_once_str, <- app_assoc. cbn [app].
    now rewrite scanstring_encode.
  - (* list *)
    destruct l as [|x l]; [reflexivity|].
    cbn [iterencode app]. rewrite scan_once_arr. unfold JSONArray.
    cbn [iterencode_list_items]. rewrite <- !app_assoc.
    rewrite skip_ws_newline_indent.
    assert (Hall : Forall (reads_back (scan_once fuel) (S level)) (x :: l)).
    { rewrite Forall_forall in IH |- *. intros y Hy.
      rewrite forallb_forall in Hw. split; [now apply Hw|].
      intros r. apply IH; [exact Hy|now apply Hw|].
      pose proof (depth_le_list y (x :: l) Hy). cbn [depth] in Hf. lia. }
    inversion Hall as [|? ? Hx Hl]; subst.
    destruct (iterencode_head x (S level) (proj1 Hx)) as (c & t & E & Hc).
    rewrite E. cbn [app]. rewrite skip_ws_opens by exact Hc.
    replace (c =? 93) with false
      by (destruct Hc as [->|[->| ->]]; reflexivity).
    change (c :: t ++ ?r) with ((c :: t) ++ r). rewrite <- E.
    rewrite (array_loop_items (scan_once fuel) (S level) (newline_indent level)
               (skip_ws_newline_indent level) rest l x); auto.
    rewrite !length_app.
    pose proof (list_items_length iterencode (S level) false l).
    cbn [length newline_indent]. lia.
  - (* dictionary *)
    destruct d as [|[k x] d]; [reflexivity|].
    apply andb_true_iff in Hw. destruct Hw as [Hk Hw].
    cbn [iterencode app]. rewrite scan_once_obj. unfold JSONObject.
    cbn [iterencode_dict_items]. rewrite <- !app_assoc.
    rewrite skip_ws_newline_indent.
    assert (Hall : Forall (reads_back_item (scan_once fuel) (S level))
                          ((k, x) :: d)).
    { rewrite Forall_forall in IH |- *. intros y Hy.
      rewrite forallb_forall in Hw. specialize (Hw y Hy).
      apply andb_true_iff in Hw. destruct Hw as [Hwk Hwv].
      split; [exact Hwk|]. split; [exact Hwv|].
      intros r. apply IH; [exact Hy|exact Hwv|].
      pose proof (depth_le_dict y ((k, x) :: d) Hy). cbn [depth] in Hf. lia. }
    inversion Hall as [|? ? Hx Hl]; subst.
    pose proof (object_loop_items (scan_once fuel) (S level)
                  (newline_indent level) (skip_ws_newline_indent level)
                  rest d k x) as Hloop.
    match goal with
    | |- context [object_loop _ ?m _] => set (n := m)
    end.
    assert (Hlen : (length d < n)%nat).
    { unfold n. rewrite !length_app.
      pose proof (dict_items_length iterencode (S level) false d).
      cbn [length newline_indent]. lia. }
    clearbody n. specialize (Hloop n Hx Hl Hlen).
    unfold encode_str in Hloop |- *. cbn [app] in Hloop |- *.
    rewrite <- !app_assoc in Hloop. cbn [app] in Hloop.
    change (skip_ws (34 :: ?r)) with (34 :: r). cbv iota.
    change (34 =? 125) with false. cbv iota.
    rewrite <- !app_assoc. cbn [app]. rewrite Hloop.
    cbn [normalize map fst snd]. do 3 f_equal.
    apply dict_of_pairs_distinct.
    apply distinct_NoDup in Hk. unfold keys.
    cbn [map fst] in Hk |- *. rewrite map_map. cbn [fst]. exact Hk.
Qed.

Lemma iterencode_normalize v :
  forall level, iterencode level (normalize v) = iterencode level v.
Proof.
  induction v as [| | |s|l IH|d IH] using json_nested_ind; intros level;
    try reflexivity.
  - cbn [normalize iterencode]. apply encode_str_join_pairs.
  - assert (Hitems : forall lv first,
              iterencode_list_items iterencode lv first (map normalize l)
              = iterencode_list_items iterencode lv first l).
    { intros lv. induction IH as [|x l Hx _ IHl]; intros first; [reflexivity|].
      cbn [map iterencode_list_items]. now rewrite Hx, IHl. }
    destruct l as [|x l]; [reflexivity|].
    cbn [normalize]. specialize (Hitems (S level) true).
    cbn [map] in Hitems |- *. cbn [iterencode]. now rewrite Hitems.
  - assert (Hitems : forall lv first,
              iterencode_dict_items iterencode lv first
                (map (fun kv => (join_pairs (fst kv), normalize (snd kv))) d)
              = iterencode_dict_items iterencode lv first d).
    { intros lv. induction IH as [|[k x] d Hx _ IHd]; intros first;
        [reflexivity|].
      cbn [map iterencode_dict_items fst snd] in *.
      now rewrite Hx, IHd, encode_str_join_pairs. }
    destruct d as [|[k x] d]; [reflexivity|].
    cbn [normalize]. specialize (Hitems (S level) true).
    cbn [map] in Hitems |- *. cbn [iterencode]. now rewrite Hitems.
Qed.

Lemma depth_lt_length v :
  writable v = true ->
  forall level, (depth v < length (iterencode level v))%nat.
Proof.
  induction v as [| | |s|l IH|d IH] using json_nested_ind;
    cbn [writable]; try discriminate; intros Hw level.
  - cbn. lia.
  - assert (Hitems : forall lv first,
              (fold_right (fun v acc => Nat.max (depth v) acc) 0 l
               <= length (iterencode_list_items iterencode lv first l))%nat).
    { intros lv. induction IH as [|x l Hx _ IHl]; intros first; [cbn; lia|].
      cbn [forallb] in Hw. apply andb_true_iff in Hw. destruct Hw as [Hwx Hwl].
      cbn [fold_right iterencode_list_items]. rewrite !length_app.
      specialize (IHl Hwl false). specialize (Hx Hwx lv). lia. }
    destruct l as [|x l]; [cbn; lia|].
    specialize (Hitems (S level) true).
    cbn [depth iterencode length]. rewrite !length_app. cbn [length]. lia.
  - apply andb_true_iff in Hw. destruct Hw as [_ Hw].
    assert (Hitems : forall lv first,
              (fold_right (fun kv acc => Nat.max (depth (snd kv)) acc) 0 d
               <= length (iterencode_dict_items iterencode lv first d))%nat).
    { intros lv. induction IH as [|[k x] d Hx _ IHd]; intros first; [cbn; lia|].
      cbn [forallb fst snd] in Hw, Hx. apply andb_true_iff in Hw.
      destruct Hw as [Hwx Hwd]. apply andb_true_iff in Hwx.
      cbn [fold_right iterencode_dict_items snd]. rewrite !length_app.
      specialize (IHd Hwd false). specialize (Hx (proj2 Hwx) lv). lia. }
    destruct d as [|kv d]; [cbn; lia|].
    specialize (Hitems (S level) true). destruct kv as [k x].
    cbn [depth iterencode length]. rewrite !length_app. cbn [length]. lia.
Qed.

(** [json.loads(json.dumps(v, indent=2))] *)
Theorem loads_dumps v :
  writable v = true -> loads (dumps v) = Some (normalize v).
Proof.
  intros Hw. unfold loads, dumps.
  destruct (iterencode_head v 0 Hw) as (c & t & E & Hc).
  assert (Hbom : startswith [0xfeff] (iterencode 0 v) = false).
  { rewrite E. destruct Hc as [->|[->| ->]]; reflexivity. }
  rewrite Hbom.
  assert (Hskip : skip_ws (iterencode 0 v) = iterencode 0 v).
  { rewrite E. now apply skip_ws_opens. }
  rewrite Hskip.
  rewrite <- (app_nil_r (iterencode 0 v)) at 2.
  rewrite scan_once_iterencode; [reflexivity|exact Hw|].
  pose proof (depth_lt_length v Hw 0%nat). lia.
Qed.

Theorem dumps_normalize v : dumps (normalize v) = dumps v.
Proof. apply iterencode_normalize. Qed.

End JsonFacts.

(** ** The monad *)

Lemma bind_inv {A B} (m : M A) (k : A -> M B) w r w' :
  bind m k w = (r, w') ->
  (exists a w1, m w = (Ok a, w1) /\ k a w1 = (r, w')) \/
  (exists e, m w = (Raise e, w') /\ r = Raise e).
Proof.
  unfold bind. destruct (m w) as [[a|e] w1].
  - intros H. left. eauto.
  - intros [= <- <-]. right. eauto.
Qed.

Lemma bind_ok {A B} (m : M A) (k : A -> M B) w a w1 :
  m w = (Ok a, w1) -> bind m k w = k a w1.
Proof. intros H. unfold bind. now rewrite H. Qed.

Lemma bind_raise {A B} (m : M A) (k : A -> M B) w e w1 :
  m w = (Raise e, w1) -> bind m k w = (Raise e, w1).
Proof. intros H. unfold bind. now rewrite H. Qed.

Lemma same_env_refl w : same_env w w.
Proof. unfold same_env. tauto. Qed.

Lemma same_env_trans w1 w2 w3 :
  same_env w1 w2 -> same_env w2 w3 -> same_env w1 w3.
Proof.
  unfold same_env. intros (a & b & c & d & e) (a' & b' & c' & d' & e').
  repeat split; congruence.
Qed.

Lemma set_registry_file_same w : set_registry_file (registry_file w) w = w.
Proof. now destruct w. Qed.

(** ** Aliases *)

Lemma uint_digits_inj d d' : uint_digits d = uint_digits d' -> d = d'.
Proof.
  revert d'. induction d; destruct d'; cbn [uint_digits]; intros H;
    try discriminate; try reflexivity;
    injection H as H; f_equal; auto.
Qed.

Lemma to_uint_nonnil n : Nat.to_uint n <> Decimal.Nil.
Proof.
  rewrite <- (Unsigned.of_to n) at 1. rewrite Unsigned.to_of.
  apply DecimalFacts.unorm_nonnil.
Qed.

Lemma format_int_nonempty n : format_int n <> [].
Proof.
  unfold format_int. pose proof (to_uint_nonnil n) as H.
  destruct (Nat.to_uint n); cbn; congruence.
Qed.

Lemma format_int_inj n m : format_int n = format_int m -> n = m.
Proof.
  unfold format_int. intros H. apply uint_digits_inj in H.
  now apply Unsigned.to_uint_inj.
Qed.

Lemma alias_key_inj i j : alias_key i = alias_key j -> i = j.
Proof.
  unfold alias_key.
  destruct (Nat.eqb_spec i 0) as [->|Hi], (Nat.eqb_spec j 0) as [->|Hj];
    intros H; try reflexivity.
  - exfalso. rewrite <- (app_nil_r (pystr ".FILE")) in H at 1.
    apply app_inv_head in H. symmetry in H. now apply format_int_nonempty in H.
  - exfalso. rewrite <- (app_nil_r (pystr ".FILE")) in H at 2.
    apply app_inv_head in H. now apply format_int_nonempty in H.
  - apply app_inv_head in H. apply format_int_inj in H. lia.
Qed.

Lemma alias_key_spec i : alias_key i = spec_alias (S i).
Proof.
  unfold alias_key, spec_alias. rewrite Nat.add_1_r.
  destruct i; reflexivity.
Qed.

Lemma fold_left_dict_set_map {A} (f : A -> str * json) (l : list A) acc :
  fold_left (fun d a => dict_set (fst (f a)) (snd (f a)) d) l acc
  = fold_left (fun d kv => dict_set (fst kv) (snd kv) d) (map f l) acc.
Proof. revert acc. induction l; cbn; auto. Qed.


Lemma keys_alias_items l a :
  keys (map alias_item (combine (seq a (length l)) l))
  = map alias_key (seq a (length l)).
Proof.
  unfold keys. rewrite map_map. cbn [alias_item fst].
  revert a. induction l as [|f l IH]; intros a; cbn; [reflexivity|].
  now rewrite IH.
Qed.

Lemma NoDup_alias_keys a n : NoDup (map alias_key (seq a n)).
Proof.
  assert (H : NoDup (seq a n)) by apply seq_NoDup.
  induction H as [|i l Hi Hl IH]; cbn [map]; constructor; [|exact IH].
  rewrite in_map_iff. intros (j & E & Hj).
  apply alias_key_inj in E. now subst.
Qed.

Lemma fold_left_ext {A B} (f g : A -> B -> A) l :
  (forall a b, f a b = g a b) ->
  forall acc, fold_left f l acc = fold_left g l acc.
Proof.
  intros H. induction l as [|b l IH]; intros acc; cbn; [reflexivity|].
  now rewrite H, IH.
Qed.

Lemma assign_aliases_items py_files :
  assign_aliases py_files = map alias_item (enumerate py_files).
Proof.
  unfold assign_aliases.
  rewrite (fold_left_ext _
             (fun d a => dict_set (fst (alias_item a)) (snd (alias_item a)) d))
    by (intros d [i f]; reflexivity).
  rewrite fold_left_dict_set_map. apply dict_of_pairs_distinct.
  unfold enumerate. rewrite keys_alias_items. apply NoDup_alias_keys.
Qed.

Lemma alias_items_spec l :
  forall a,
    map alias_item (combine (seq a (length l)) l)
    = combine (map spec_alias (seq (S a) (length l))) (map JStr l).
Proof.
  induction l as [|f l IH]; intros a; cbn [length seq combine map]; [reflexivity|].
  rewrite IH. unfold alias_item at 1. cbn [fst snd]. now rewrite alias_key_spec.
Qed.

Lemma assign_aliases_spec py_files :
  assign_aliases py_files = spec_files py_files.
Proof.
  rewrite assign_aliases_items. unfold enumerate, spec_files.
  apply alias_items_spec.
Qed.

Lemma keys_spec_files py_files :
  keys (spec_files py_files) = map spec_alias (seq 1 (length py_files)).
Proof.
  rewrite <- assign_aliases_spec, assign_aliases_items. unfold enumerate.
  rewrite keys_alias_items, <- seq_shift, map_map.
  apply map_ext. intros i. apply alias_key_spec.
Qed.

Lemma values_spec_files py_files :
  map snd (spec_files py_files) = map JStr py_files.
Proof.
  rewrite <- assign_aliases_spec, assign_aliases_items. unfold enumerate.
  rewrite map_map. cbn [alias_item snd].
  generalize 0%nat. induction py_files as [|f l IH]; intros a; cbn; [reflexivity|].
  now rewrite IH.
Qed.

Lemma parse_deps_spec libs : parse_deps libs = spec_dependencies libs.
Proof.
  unfold parse_deps, spec_dependencies.
  induction (split 44 libs) as [|lib l IH]; cbn [flat_map map filter]; [reflexivity|].
  rewrite IH. now destruct (truthy (strip lib)).
Qed.

Lemma build_registry_spec py_files libs :
  build_registry py_files (parse_deps libs) = spec_registry py_files libs.
Proof.
  unfold build_registry, spec_registry.
  rewrite assign_aliases_spec, parse_deps_spec. reflexivity.
Qed.

(** ** Dependencies *)

Lemma installs_cleanly_same_env w w' deps :
  same_env w w' -> installs_cleanly w deps -> installs_cleanly w' deps.
Proof.
  intros (_ & _ & Hi & Hp & _) H tr dep Hin. rewrite Hi, Hp. now apply H.
Qed.

Lemma same_env_add_event e w : same_env w (add_event e w).
Proof. unfold same_env. cbn. tauto. Qed.

Lemma same_env_add_stdout l w : same_env w (add_stdout l w).
Proof. unfold same_env. cbn. tauto. Qed.

Lemma same_env_set_registry_file f w : same_env w (set_registry_file f w).
Proof. unfold same_env. cbn. tauto. Qed.

(** [ensure_installed] never touches the registry file nor the
    environment. *)
Lemma ensure_installed_frame deps :
  forall w r w',
    ensure_installed deps w = (r, w') ->
    registry_file w' = registry_file w /\ same_env w w'.
Proof.
  induction deps as [|dep deps IH]; intros w r w' H.
  - injection H as <- <-. split; [reflexivity|apply same_env_refl].
  - cbn [ensure_installed] in H. unfold bind at 1, py_import at 1 in H.
    destruct (import_env w (events w) dep) as [e|].
    + destruct (is_ImportError e).
      * unfold bind at 1, print at 1 in H. unfold bind at 1, check_call_pip at 1 in H.
        cbn [events add_stdout add_event pip_env] in H.
        destruct (pip_env w (events w ++ [EvImport dep]) dep =? 0)%Z.
        -- apply IH in H. cbn in H. destruct H as [H1 H2]. split; [exact H1|].
           unfold same_env in *. cbn in H2. exact H2.
        -- injection H as <- <-. cbn. split; [reflexivity|].
           unfold same_env. cbn. tauto.
      * injection H as <- <-. cbn. split; [reflexivity|].
        unfold same_env. cbn. tauto.
    + apply IH in H. cbn in H. destruct H as [H1 H2]. split; [exact H1|].
      unfold same_env in *. cbn in H2. exact H2.
Qed.

Lemma ensure_installed_ok deps :
  forall w,
    installs_cleanly w deps ->
    exists w', ensure_installed deps w = (Ok tt, w').
Proof.
  induction deps as [|dep deps IH]; intros w H.
  - eexists. reflexivity.
  - cbn [ensure_installed]. unfold bind at 1, py_import at 1.
    pose proof (H (events w) dep (or_introl eq_refl)) as Hd.
    destruct (import_env w (events w) dep) as [e|].
    + destruct Hd as [He Hp]. rewrite He.
      unfold bind at 1, print at 1. unfold bind at 1, check_call_pip at 1.
      cbn [events add_stdout add_event pip_env]. rewrite Hp. cbn [Z.eqb].
      apply IH. intros tr d Hin. cbn. apply H. now right.
    + apply IH. intros tr d Hin. cbn. apply H. now right.
Qed.

(** A dependency that cannot be imported and whose installation fails
    makes [ensure_installed] raise. *)
Lemma ensure_installed_fails deps :
  forall w dep,
    In dep deps ->
    (forall tr, exists e, import_env w tr dep = Some e /\ is_ImportError e = true) ->
    (forall tr, pip_env w tr dep <> 0%Z) ->
    exists e w', ensure_installed deps w = (Raise e, w').
Proof.
  induction deps as [|d deps IH]; intros w dep Hin Himp Hpip; [destruct Hin|].
  cbn [ensure_installed]. unfold bind at 1, py_import at 1.
  destruct Hin as [->|Hin].
  - destruct (Himp (events w)) as (e & -> & ->).
    unfold bind at 1, print at 1. unfold bind at 1, check_call_pip at 1.
    cbn [events add_stdout add_event pip_env].
    destruct (Z.eqb_spec (pip_env w (events w ++ [EvImport dep]) dep) 0) as [E|E].
    + now apply Hpip in E.
    + eauto.
  - destruct (import_env w (events w) d) as [e|].
    + destruct (is_ImportError e); [|unfold raise; eauto].
      unfold bind at 1, print at 1. unfold bind at 1, check_call_pip at 1.
      cbn [events add_stdout add_event pip_env].
      destruct (pip_env w (events w ++ [EvImport d]) d =? 0)%Z; [|eauto].
      apply (IH _ dep Hin); cbn; auto.
    + apply (IH _ dep Hin); cbn; auto.
Qed.

(** What [ensure_installed] can raise: what an import raised, unless it is
    an [ImportError], or the [CalledProcessError] of a failed [pip]. *)
Lemma ensure_installed_raises deps :
  forall w e w',
    ensure_installed deps w = (Raise e, w') ->
    (exists tr dep, import_env w tr dep = Some e /\ is_ImportError e = false) \/
    (exists rc, e = CalledProcessError rc /\ rc <> 0%Z).
Proof.
  induction deps as [|d deps IH]; intros w e w' H; [discriminate|].
  cbn [ensure_installed] in H. unfold bind at 1, py_import at 1 in H.
  destruct (import_env w (events w) d) as [e0|] eqn:E0.
  - destruct (is_ImportError e0) eqn:Ei.
    + unfold bind at 1, print at 1 in H. unfold bind at 1, check_call_pip at 1 in H.
      cbn [events add_stdout add_event pip_env] in H.
      destruct (Z.eqb_spec (pip_env w (events w ++ [EvImport d]) d) 0) as [E|E].
      * apply IH in H. exact H.
      * injection H as <- <-. right. eauto.
    + injection H as <- <-. left. eauto.
  - apply IH in H. exact H.
Qed.

(** ** Register *)

Lemma register_ok w folder names libs :
  listdir_env w (normalize_folder folder) = Some names ->
  input_env w = Some libs ->
  installs_cleanly w (parse_deps libs) ->
  exists w',
    register folder w = (Ok tt, w') /\
    registry_file w'
    = Some (Json.dumps (build_registry (py_sources names) (parse_deps libs))) /\
    same_env w w'.
Proof.
  intros Hl Hi Hc. unfold register.
  unfold bind at 1, listdir at 1. rewrite Hl.
  unfold bind at 1, input at 1. rewrite Hi.
  assert (Hc' : installs_cleanly (add_stdout MsgPrompt w) (parse_deps libs))
    by (eapply installs_cleanly_same_env; [apply same_env_add_stdout|exact Hc]).
  destruct (ensure_installed_ok _ _ Hc') as (w2 & E).
  destruct (ensure_installed_frame _ _ _ _ E) as [_ Henv].
  rewrite (bind_ok _ _ _ _ _ E).
  unfold bind, save_registry, print. eexists. split; [reflexivity|].
  split; [reflexivity|].
  eapply same_env_trans; [apply same_env_add_stdout|].
  eapply same_env_trans; [exact Henv|].
  eapply same_env_trans; [apply same_env_set_registry_file|].
  apply same_env_add_stdout.
Qed.

(** A [register] that raises has not written the registry file. *)
Lemma register_raise_frame w folder e w' :
  register folder w = (Raise e, w') -> registry_file w' = registry_file w.
Proof.
  unfold register. intros H.
  unfold bind at 1, listdir at 1 in H.
  destruct (listdir_env w (normalize_folder folder)) as [names|];
    [|now injection H as <- <-].
  unfold bind at 1, input at 1 in H.
  destruct (input_env w) as [libs|]; [|now injection H as <- <-].
  apply bind_inv in H. destruct H as [(a & w1 & E & H)|(e' & E & _)].
  - unfold bind, save_registry, print in H. discriminate.
  - apply ensure_installed_frame in E. now destruct E as [E _].
Qed.

(** ** Well-formed strings *)

Lemma valid_str_app a b :
  valid_str (a ++ b) = valid_str a && valid_str b.
Proof. apply forallb_app. Qed.

Lemma valid_str_rev s : valid_str (rev s) = valid_str s.
Proof.
  induction s as [|c s IH]; [reflexivity|].
  cbn [rev]. rewrite valid_str_app, IH. cbn. now rewrite andb_true_r, andb_comm.
Qed.

Lemma valid_str_lstrip s : valid_str s = true -> valid_str (lstrip s) = true.
Proof.
  induction s as [|c s IH]; [reflexivity|]. intros H. cbn [lstrip].
  destruct (is_space c); [|exact H].
  cbn in H. apply andb_true_iff in H. now apply IH.
Qed.

Lemma valid_str_strip s : valid_str s = true -> valid_str (strip s) = true.
Proof.
  intros H. unfold strip, rstrip. rewrite valid_str_rev.
  apply valid_str_lstrip. rewrite valid_str_rev. now apply valid_str_lstrip.
Qed.

Lemma valid_str_split sep s :
  valid_str s = true -> forallb valid_str (split sep s) = true.
Proof.
  induction s as [|c s IH]; [reflexivity|]. intros H.
  cbn in H. apply andb_true_iff in H. destruct H as [Hc Hs].
  specialize (IH Hs). cbn [split].
  destruct (c =? sep); [exact IH|].
  destruct (split sep s) as [|p ps]; cbn in *.
  - now rewrite Hc.
  - apply andb_true_iff in IH. destruct IH as [Hp Hps].
    fold (valid_str p). now rewrite Hc, Hp, Hps.
Qed.

Lemma valid_parse_deps libs :
  valid_str libs = true -> forallb valid_str (parse_deps libs) = true.
Proof.
  intros H. unfold parse_deps. apply valid_str_split with (sep := 44) in H.
  induction (split 44 libs) as [|lib l IH]; [reflexivity|].
  cbn [forallb flat_map] in *. apply andb_true_iff in H. destruct H as [H1 H2].
  rewrite forallb_app, (IH H2), andb_true_r.
  destruct (truthy (strip lib)); [|reflexivity].
  cbn. now rewrite valid_str_strip.
Qed.

Lemma valid_py_sources names :
  forallb valid_str names = true -> forallb valid_str (py_sources names) = true.
Proof.
  unfold py_sources. rewrite !forallb_forall. intros H f Hf.
  apply filter_In in Hf. now apply H.
Qed.

(** ** Aliases are plain ASCII *)



Lemma ascii_only_valid s : ascii_only s = true -> valid_str s = true.
Proof.
  unfold ascii_only, valid_str, valid_char. rewrite !forallb_forall.
  intros H c Hc. specialize (H c Hc). apply N.ltb_lt in H. apply N.ltb_lt. lia.
Qed.

Lemma ascii_only_join_pairs s : ascii_only s = true -> Json.join_pairs s = s.
Proof.
  induction s as [|c s IH]; [reflexivity|]. intros H.
  cbn in H. apply andb_true_iff in H. destruct H as [Hc Hs].
  rewrite JsonFacts.join_pairs_not_high, IH; auto.
  apply N.ltb_lt in Hc. apply not_true_is_false. intros E.
  apply JsonFacts.surrogate_bounds in E. lia.
Qed.

Lemma ascii_only_uint_digits d : ascii_only (uint_digits d) = true.
Proof. induction d; cbn; auto. Qed.

Lemma ascii_only_alias_key i : ascii_only (alias_key i) = true.
Proof.
  unfold alias_key. destruct (Nat.eqb i 0); [reflexivity|].
  unfold ascii_only. rewrite forallb_app. apply andb_true_iff.
  split; [reflexivity|apply ascii_only_uint_digits].
Qed.

(** ** The written text is plain ASCII *)

Module JsonAscii.
Import Json.

Lemma ascii_only_app a b : ascii_only (a ++ b) = ascii_only a && ascii_only b.
Proof. apply forallb_app. Qed.

Lemma hexdigit_ascii x : (hexdigit (x mod 16) <? 128) = true.
Proof.
  apply N.ltb_lt. unfold hexdigit.
  assert (x mod 16 < 16) by (apply N.mod_lt; lia).
  destruct (x mod 16 <? 10); lia.
Qed.

Lemma u_escape_ascii n : ascii_only (u_escape n) = true.
Proof.
  unfold u_escape, hex4. cbn [ascii_only forallb].
  now rewrite !hexdigit_ascii.
Qed.

Lemma escape_char_ascii c : ascii_only (escape_char c) = true.
Proof.
  unfold escape_char.
  repeat match goal with
  | |- context [N.eqb c ?k] => destruct (N.eqb c k); [reflexivity|]
  end.
  destruct (N.leb_spec c 126) as [H|H].
  - destruct (32 <=? c); cbn [andb].
    + cbn. rewrite andb_true_r. apply N.ltb_lt. lia.
    + repeat match goal with
      | |- context [N.eqb c ?k] => destruct (N.eqb c k); [reflexivity|]
      end.
      destruct (c <? 65536); [apply u_escape_ascii|].
      cbv zeta. now rewrite ascii_only_app, !u_escape_ascii.
  - rewrite andb_false_r.
    repeat match goal with
    | |- context [N.eqb c ?k] => destruct (N.eqb c k); [reflexivity|]
    end.
    destruct (c <? 65536); [apply u_escape_ascii|].
    cbv zeta. now rewrite ascii_only_app, !u_escape_ascii.
Qed.

Lemma encode_str_ascii s : ascii_only (encode_str s) = true.
Proof.
  unfold encode_str. cbn [ascii_only forallb]. fold (ascii_only (encode_body s ++ [34])).
  rewrite ascii_only_app. cbn. rewrite andb_true_r.
  induction s as [|c s IH]; [reflexivity|].
  rewrite JsonFacts.encode_body_cons, ascii_only_app, escape_char_ascii. exact IH.
Qed.

Lemma newline_indent_ascii level : ascii_only (newline_indent level) = true.
Proof.
  unfold newline_indent. cbn [ascii_only forallb].
  induction (2 * level)%nat; [reflexivity|exact IHn].
Qed.

(** The text written for a writable value is plain ASCII: it stands for
    the bytes of the file under any ASCII-compatible encoding. *)
Lemma iterencode_ascii v :
  writable v = true -> forall level, ascii_only (iterencode level v) = true.
Proof.
  induction v as [| | |s|l IH|d IH] using json_nested_ind;
    cbn [writable]; try discriminate; intros Hw level.
  - apply encode_str_ascii.
  - assert (Hitems : forall lv first,
              ascii_only (iterencode_list_items iterencode lv first l) = true).
    { intros lv. induction IH as [|x l Hx _ IHl]; intros first; [reflexivity|].
      cbn [forallb] in Hw. apply andb_true_iff in Hw. destruct Hw as [Hwx Hwl].
      cbn [iterencode_list_items]. rewrite !ascii_only_app.
      rewrite (Hx Hwx lv), (IHl Hwl false), andb_true_r.
      destruct first; [apply newline_indent_ascii|].
      cbn [ascii_only forallb]. apply newline_indent_ascii. }
    destruct l as [|x l]; [reflexivity|].
    cbn [iterencode]. cbn [ascii_only forallb].
    fold (ascii_only (iterencode_list_items iterencode (S level) true (x :: l)
                      ++ newline_indent level ++ [93])).
    now rewrite !ascii_only_app, Hitems, newline_indent_ascii.
  - apply andb_true_iff in Hw. destruct Hw as [_ Hw].
    assert (Hitems : forall lv first,
              ascii_only (iterencode_dict_items iterencode lv first d) = true).
    { intros lv. induction IH as [|[k x] d Hx _ IHd]; intros first; [reflexivity|].
      cbn [forallb fst snd] in Hw, Hx. apply andb_true_iff in Hw.
      destruct Hw as [Hwx Hwd]. apply andb_true_iff in Hwx.
      cbn [iterencode_dict_items]. rewrite !ascii_only_app.
      rewrite encode_str_ascii, (Hx (proj2 Hwx) lv), (IHd Hwd false), !andb_true_r.
      destruct first; [apply newline_indent_ascii|].
      cbn [ascii_only forallb]. apply newline_indent_ascii. }
    destruct d as [|kv d]; [reflexivity|].
    cbn [iterencode]. destruct kv as [k x]. cbn [ascii_only forallb].
    fold (ascii_only (iterencode_dict_items iterencode (S level) true ((k, x) :: d)
                      ++ newline_indent level ++ [125])).
    now rewrite !ascii_only_app, Hitems, newline_indent_ascii.
Qed.
End JsonAscii.

(** The registry that [register] saves can be written and read back. *)
Lemma build_registry_writable py_files deps :
  forallb valid_str py_files = true -> forallb valid_str deps = true ->
  Json.writable (build_registry py_files deps) = true.
Proof.
  intros Hf Hd. unfold build_registry.
  change (dict_set REGISTRY_KEY_DEPENDENCIES (JArr (map JStr deps))
            [(REGISTRY_KEY_FILES, JObj (assign_aliases py_files));
             (REGISTRY_KEY_DEPENDENCIES, JArr [])])
    with [(REGISTRY_KEY_FILES, JObj (assign_aliases py_files));
          (REGISTRY_KEY_DEPENDENCIES, JArr (map JStr deps))].
  cbn [Json.writable map fst snd forallb].
  change (Json.distinct [Json.join_pairs REGISTRY_KEY_FILES;
                         Json.join_pairs REGISTRY_KEY_DEPENDENCIES]) with true.
  change (valid_str REGISTRY_KEY_FILES) with true.
  change (valid_str REGISTRY_KEY_DEPENDENCIES) with true.
  cbn [andb]. rewrite andb_true_r. apply andb_true_iff. split.
  - apply andb_true_iff. split.
    + apply distinct_NoDup. rewrite assign_aliases_items. unfold enumerate.
      rewrite <- (map_map fst Json.join_pairs).
      change (map fst ?d) with (keys d). rewrite keys_alias_items.
      rewrite (map_ext_in _ (fun k => k)), map_id; [apply NoDup_alias_keys|].
      intros k Hk. apply in_map_iff in Hk. destruct Hk as (i & <- & _).
      apply ascii_only_join_pairs, ascii_only_alias_key.
    + rewrite assign_aliases_items. apply forallb_forall. intros kv Hkv.
      apply in_map_iff in Hkv. destruct Hkv as ([i f] & <- & Hin).
      cbn [alias_item fst snd Json.writable].
      rewrite (ascii_only_valid _ (ascii_only_alias_key i)). cbn [andb].
      rewrite forallb_forall in Hf. apply Hf.
      unfold enumerate in Hin. now apply in_combine_r in Hin.
  - rewrite forallb_forall in Hd |- *. intros v Hv.
    apply in_map_iff in Hv. destruct Hv as (d & <- & Hin). now apply Hd.
Qed.

(** ** Debug *)

Lemma debug_target_frame dot filepath w r w' :
  debug_target dot filepath w = (r, w') ->
  registry_file w' = registry_file w /\ same_env w w' /\
  events w' = events w ++ [EvRunPath filepath].
Proof.
  unfold debug_target, bind, print, run_path, ret, raise.
  cbn [events add_stdout add_event run_env].
  destruct (run_env w (events w) filepath) as [[e tb]|];
    [destruct (is_Exception e)|]; intros [= <- <-]; cbn;
    repeat split; reflexivity.
Qed.


(** What a batch can raise: what a target raised outside [Exception]. *)
Lemma debug_loop_raises targets :
  forall w e w',
    debug_loop targets w = (Raise e, w') ->
    exists tr filepath tb,
      run_env w tr filepath = Some (e, tb) /\ is_Exception e = false.
Proof.
  induction targets as [|[dot filepath] targets IH]; intros w e w' H;
    [discriminate|].
  cbn [debug_loop] in H. apply bind_inv in H.
  destruct H as [(a & w1 & E & H)|(e' & E & [= <-])].
  - apply debug_target_frame in E. destruct E as (_ & (_ & _ & _ & _ & Hr) & _).
    apply IH in H. rewrite Hr in H. exact H.
  - unfold debug_target, bind, print, run_path, ret, raise in E.
    cbn [events add_stdout add_event run_env] in E.
    destruct (run_env w (events w) filepath) as [[e0 tb]|] eqn:E0;
      [destruct (is_Exception e0) eqn:Hc|]; try discriminate.
    injection E as <- _. eauto.
Qed.

Lemma load_registry_ok w text reg :
  registry_file w = Some text -> Json.loads text = Some reg ->
  load_registry w = (Ok reg, w).
Proof. intros H1 H2. unfold load_registry. now rewrite H1, H2. Qed.

Lemma load_registry_missing w :
  registry_file w = None ->
  load_registry w = (Raise (SystemExit 1), add_stdout MsgNoProject w).
Proof. intros H. unfold load_registry. now rewrite H. Qed.

Lemma load_registry_inv w r w' :
  load_registry w = (r, w') ->
  (registry_file w = None /\ r = Raise (SystemExit 1)
   /\ w' = add_stdout MsgNoProject w) \/
  (w' = w /\ r = Raise JSONDecodeError) \/
  (w' = w /\ exists reg, r = Ok reg).
Proof.
  unfold load_registry. destruct (registry_file w) as [text|].
  - destruct (Json.loads text); intros [= <- <-]; eauto.
  - intros [= <- <-]. auto.
Qed.

(* ===================================================================== *)
(** * The claims of the specification *)
(* ===================================================================== *)

(** C1, as stated, fails: in a folder with one source file, when the
    dependency the user names cannot be imported and [pip] exits with a
    non-zero status, [register] raises and persists no registry. *)
Lemma register_without_install_persists_nothing :
  listdir_env (pip_fails None) (normalize_folder (pystr "proj"))
    = Some [pystr "a.py"] /\
  input_env (pip_fails None) = Some (pystr "requests") /\
  fst (register (pystr "proj") (pip_fails None)) = Raise (CalledProcessError 1) /\
  registry_file (snd (register (pystr "proj") (pip_fails None))) = None.
Proof. repeat split; vm_compute; reflexivity. Qed.

(** C1, amended: for every folder whose listing has n entries ending in
    [.py], when the dependencies install cleanly, [register] returns and
    persists the registry of the specification: n files under [.FILE],
    [.FILE2], ..., [.FILE<n>] in listing order, and the comma-split, trimmed,
    non-empty entries of the input as dependencies. *)
Theorem register_persists_registry w folder names libs :
  listdir_env w (normalize_folder folder) = Some names ->
  input_env w = Some libs ->
  installs_cleanly w (parse_deps libs) ->
  exists w',
    register folder w = (Ok tt, w') /\
    registry_file w'
    = Some (Json.dumps (spec_registry (py_sources names) libs)) /\
    length (spec_files (py_sources names)) = length (py_sources names) /\
    keys (spec_files (py_sources names))
    = map spec_alias (seq 1 (length (py_sources names))) /\
    map snd (spec_files (py_sources names)) = map JStr (py_sources names) /\
    NoDup (keys (spec_files (py_sources names))).
Proof.
  intros Hl Hi Hc.
  destruct (register_ok w folder names libs Hl Hi Hc) as (w' & Hrun & Hreg & _).
  exists w'. split; [exact Hrun|]. split.
  - now rewrite Hreg, build_registry_spec.
  - pose proof (keys_spec_files (py_sources names)) as Hk.
    split; [|split; [exact Hk|split; [apply values_spec_files|]]].
    + rewrite <- (length_map fst). fold (keys (spec_files (py_sources names))).
      now rewrite Hk, length_map, length_seq.
    + rewrite <- assign_aliases_spec, assign_aliases_items. unfold enumerate.
      rewrite keys_alias_items. apply NoDup_alias_keys.
Qed.

(** C1 (amended) on the fresh sample project. *)
Lemma register_persists_registry_witness :
  listdir_env fresh_project (normalize_folder (pystr "current"))
    = Some [pystr "a.py"; pystr "notes.txt"; pystr "b.py"] /\
  input_env fresh_project = Some (pystr " numpy, ,requests") /\
  installs_cleanly fresh_project (parse_deps (pystr " numpy, ,requests")) /\
  exists w',
    register (pystr "current") fresh_project = (Ok tt, w') /\
    registry_file w'
    = Some (Json.dumps
              (spec_registry
                 (py_sources [pystr "a.py"; pystr "notes.txt"; pystr "b.py"])
                 (pystr " numpy, ,requests"))) /\
    length (spec_files (py_sources [pystr "a.py"; pystr "notes.txt"; pystr "b.py"]))
    = length (py_sources [pystr "a.py"; pystr "notes.txt"; pystr "b.py"]) /\
    keys (spec_files (py_sources [pystr "a.py"; pystr "notes.txt"; pystr "b.py"]))
    = map spec_alias
        (seq 1 (length (py_sources [pystr "a.py"; pystr "notes.txt"; pystr "b.py"]))) /\
    map snd (spec_files (py_sources [pystr "a.py"; pystr "notes.txt"; pystr "b.py"]))
    = map JStr (py_sources [pystr "a.py"; pystr "notes.txt"; pystr "b.py"]) /\
    NoDup (keys (spec_files (py_sources [pystr "a.py"; pystr "notes.txt"; pystr "b.py"]))).
Proof.
  assert (Hc : installs_cleanly fresh_project
                 (parse_deps (pystr " numpy, ,requests")))
    by (intros tr dep _; exact I).
  split; [reflexivity|]. split; [reflexivity|]. split; [exact Hc|].
  exact (register_persists_registry fresh_project (pystr "current") _ _
           eq_refl eq_refl Hc).
Defined.

(** C5, as stated, fails: when the installation of a dependency fails,
    re-running [register] leaves the previous registry file as it was
    instead of replacing it. *)
Lemma failed_reregister_keeps_old_registry :
  registry_file
    (snd (register (pystr "proj") (pip_fails (Some sample_registry_text))))
  = Some sample_registry_text /\
  sample_registry_text <> Json.dumps (build_registry [pystr "a.py"] [pystr "requests"]) /\
  fst (register (pystr "proj") (pip_fails (Some sample_registry_text)))
  = Raise (CalledProcessError 1).
Proof.
  split; [vm_compute; reflexivity|]. split; [|vm_compute; reflexivity].
  vm_compute. discriminate.
Qed.

Lemma normalize_build_registry py_files deps :
  Json.normalize (build_registry py_files deps)
  = JObj [(REGISTRY_KEY_FILES,
           JObj (map (fun kv => (Json.join_pairs (fst kv), Json.normalize (snd kv)))
                     (assign_aliases py_files)));
          (REGISTRY_KEY_DEPENDENCIES,
           JArr (map (fun d => JStr (Json.join_pairs d)) deps))].
Proof.
  unfold build_registry.
  change (dict_set REGISTRY_KEY_DEPENDENCIES (JArr (map JStr deps))
            [(REGISTRY_KEY_FILES, JObj (assign_aliases py_files));
             (REGISTRY_KEY_DEPENDENCIES, JArr [])])
    with [(REGISTRY_KEY_FILES, JObj (assign_aliases py_files));
          (REGISTRY_KEY_DEPENDENCIES, JArr (map JStr deps))].
  cbn [Json.normalize map fst snd]. rewrite map_map.
  reflexivity.
Qed.

Lemma keys_normalized_aliases py_files :
  keys (map (fun kv => (Json.join_pairs (fst kv), Json.normalize (snd kv)))
            (assign_aliases py_files))
  = map alias_key (seq 0 (length py_files)).
Proof.
  unfold keys. rewrite map_map. cbn [fst].
  rewrite <- (map_map fst Json.join_pairs).
  change (map fst ?d) with (keys d).
  rewrite assign_aliases_items. unfold enumerate. rewrite keys_alias_items.
  rewrite (map_ext_in _ (fun k => k)), map_id; [reflexivity|].
  intros k Hk. apply in_map_iff in Hk. destruct Hk as (i & <- & _).
  apply ascii_only_join_pairs, ascii_only_alias_key.
Qed.

(** C5, amended: whatever the registry file held before, a [register] whose
    dependencies install cleanly replaces it with the registry built from
    the folder's listing and the new input alone; read back, its [files]
    mapping has exactly the aliases of the new listing and its
    [dependencies] exactly the new entries. *)
Theorem register_replaces_registry w folder names libs old :
  listdir_env w (normalize_folder folder) = Some names ->
  input_env w = Some libs ->
  installs_cleanly w (parse_deps libs) ->
  forallb valid_str names = true ->
  valid_str libs = true ->
  exists w' files',
    register folder (set_registry_file old w) = (Ok tt, w') /\
    registry_file w'
    = Some (Json.dumps (build_registry (py_sources names) (parse_deps libs))) /\
    Json.loads (Json.dumps (build_registry (py_sources names) (parse_deps libs)))
    = Some (JObj [(REGISTRY_KEY_FILES, JObj files');
                  (REGISTRY_KEY_DEPENDENCIES,
                   JArr (map (fun d => JStr (Json.join_pairs d))
                             (parse_deps libs)))]) /\
    keys files' = map alias_key (seq 0 (length (py_sources names))) /\
    (forall k, dict_mem k files' = true <->
               exists i, (i < length (py_sources names))%nat /\ k = alias_key i).
Proof.
  intros Hl Hi Hc Hvn Hvl.
  assert (Hc' : installs_cleanly (set_registry_file old w) (parse_deps libs))
    by (eapply installs_cleanly_same_env;
        [apply same_env_set_registry_file|exact Hc]).
  destruct (register_ok (set_registry_file old w) folder names libs Hl Hi Hc')
    as (w' & Hrun & Hreg & _).
  exists w'. eexists. split; [exact Hrun|]. split; [exact Hreg|].
  split; [|split].
  - rewrite JsonFacts.loads_dumps, normalize_build_registry; [reflexivity|].
    apply build_registry_writable;
      [now apply valid_py_sources|now apply valid_parse_deps].
  - apply keys_normalized_aliases.
  - intros k. rewrite dict_mem_In, keys_normalized_aliases, in_map_iff.
    split.
    + intros (i & <- & Hin). apply in_seq in Hin. exists i. split; [lia|reflexivity].
    + intros (i & Hlt & ->). exists i. split; [reflexivity|]. apply in_seq. lia.
Qed.

(** C5 (amended) on the fresh sample project, over an older registry. *)
Lemma register_replaces_registry_witness :
  listdir_env fresh_project (normalize_folder (pystr "current"))
    = Some [pystr "a.py"; pystr "notes.txt"; pystr "b.py"] /\
  input_env fresh_project = Some (pystr " numpy, ,requests") /\
  installs_cleanly fresh_project (parse_deps (pystr " numpy, ,requests")) /\
  forallb valid_str [pystr "a.py"; pystr "notes.txt"; pystr "b.py"] = true /\
  valid_str (pystr " numpy, ,requests") = true /\
  exists w' files',
    register (pystr "current")
      (set_registry_file (Some sample_registry_text) fresh_project) = (Ok tt, w') /\
    registry_file w'
    = Some (Json.dumps
              (build_registry
                 (py_sources [pystr "a.py"; pystr "notes.txt"; pystr "b.py"])
                 (parse_deps (pystr " numpy, ,requests")))) /\
    Json.loads
      (Json.dumps
         (build_registry
            (py_sources [pystr "a.py"; pystr "notes.txt"; pystr "b.py"])
            (parse_deps (pystr " numpy, ,requests"))))
    = Some (JObj [(REGISTRY_KEY_FILES, JObj files');
                  (REGISTRY_KEY_DEPENDENCIES,
                   JArr (map (fun d => JStr (Json.join_pairs d))
                             (parse_deps (pystr " numpy, ,requests"))))]) /\
    keys files'
    = map alias_key
        (seq 0 (length (py_sources [pystr "a.py"; pystr "notes.txt"; pystr "b.py"]))) /\
    (forall k, dict_mem k files' = true <->
               exists i,
                 (i < length (py_sources [pystr "a.py"; pystr "notes.txt"; pystr "b.py"]))%nat
                 /\ k = alias_key i).
Proof.
  assert (Hc : installs_cleanly fresh_project
                 (parse_deps (pystr " numpy, ,requests")))
    by (intros tr dep _; exact I).
  split; [reflexivity|]. split; [reflexivity|]. split; [exact Hc|].
  split; [reflexivity|]. split; [reflexivity|].
  exact (register_replaces_registry fresh_project (pystr "current") _ _
           (Some sample_registry_text) eq_refl eq_refl Hc eq_refl eq_refl).
Defined.

(** C8: [ensure_installed] runs before [save_registry], so when a
    dependency cannot be imported and its [pip] run exits with a non-zero
    status, [register] raises (the [CalledProcessError] of [check_call], or
    what an earlier import raised) before any write, and the registry file
    is what it was. *)
Theorem register_install_failure_keeps_registry w folder names libs dep :
  listdir_env w (normalize_folder folder) = Some names ->
  input_env w = Some libs ->
  In dep (parse_deps libs) ->
  (forall tr, exists e, import_env w tr dep = Some e /\ is_ImportError e = true) ->
  (forall tr, pip_env w tr dep <> 0%Z) ->
  exists e w',
    register folder w = (Raise e, w') /\
    registry_file w' = registry_file w /\
    ((exists rc, e = CalledProcessError rc /\ rc <> 0%Z) \/
     (exists tr d, import_env w tr d = Some e /\ is_ImportError e = false)).
Proof.
  intros Hl Hi Hin Himp Hpip.
  destruct (ensure_installed_fails (parse_deps libs) (add_stdout MsgPrompt w)
              dep Hin Himp Hpip) as (e & w1 & E).
  assert (Hrun : register folder w = (Raise e, w1)).
  { unfold register. unfold bind at 1, listdir at 1. rewrite Hl.
    unfold bind at 1, input at 1. rewrite Hi.
    now rewrite (bind_raise _ _ _ _ _ E). }
  exists e, w1. split; [exact Hrun|]. split.
  - now apply register_raise_frame in Hrun.
  - apply ensure_installed_raises in E. cbn in E. tauto.
Qed.

(** C8 on the sample project whose [pip] fails. *)
Lemma register_install_failure_keeps_registry_witness :
  listdir_env (pip_fails (Some sample_registry_text))
    (normalize_folder (pystr "proj")) = Some [pystr "a.py"] /\
  input_env (pip_fails (Some sample_registry_text)) = Some (pystr "requests") /\
  In (pystr "requests") (parse_deps (pystr "requests")) /\
  exists e w',
    register (pystr "proj") (pip_fails (Some sample_registry_text)) = (Raise e, w') /\
    registry_file w' = registry_file (pip_fails (Some sample_registry_text)) /\
    ((exists rc, e = CalledProcessError rc /\ rc <> 0%Z) \/
     (exists tr d,
        import_env (pip_fails (Some sample_registry_text)) tr d = Some e
        /\ is_ImportError e = false)).
Proof.
  split; [reflexivity|]. split; [reflexivity|].
  split; [left; reflexivity|].
  apply (register_install_failure_keeps_registry
           (pip_fails (Some sample_registry_text)) (pystr "proj")
           [pystr "a.py"] (pystr "requests") (pystr "requests")).
  - reflexivity.
  - reflexivity.
  - left; reflexivity.
  - intros tr. exists ModuleNotFoundError. split; reflexivity.
  - intros tr. cbn. discriminate.
Defined.

Lemma save_load_unchanged w data :
  Json.writable data = true ->
  registry_file w = Some (Json.dumps data) ->
  save_load w = (Ok tt, w).
Proof.
  intros Hw Hf. unfold save_load.
  rewrite (bind_ok _ _ _ _ _
             (load_registry_ok w _ _ Hf (JsonFacts.loads_dumps data Hw))).
  unfold save_registry. rewrite JsonFacts.dumps_normalize, <- Hf.
  now rewrite set_registry_file_same.
Qed.

(** C6: on a registry file that holds what [save_registry] wrote for a
    writable value, [save(load())] returns and leaves the world, and so the
    file, exactly as it was: the same text, which is plain ASCII and hence
    the same bytes. *)
Theorem save_load_roundtrip w data :
  Json.writable data = true ->
  registry_file w = Some (Json.dumps data) ->
  save_load w = (Ok tt, w) /\
  registry_file (snd (save_load w)) = Some (Json.dumps data) /\
  ascii_only (Json.dumps data) = true.
Proof.
  intros Hw Hf. rewrite (save_load_unchanged w data Hw Hf).
  split; [reflexivity|]. split; [exact Hf|].
  now apply JsonAscii.iterencode_ascii.
Qed.

(** In particular the file a successful [register] leaves behind is left
    as it is by [save(load())]. *)
Corollary registered_file_roundtrip w folder names libs :
  listdir_env w (normalize_folder folder) = Some names ->
  input_env w = Some libs ->
  installs_cleanly w (parse_deps libs) ->
  forallb valid_str names = true ->
  valid_str libs = true ->
  exists w', register folder w = (Ok tt, w') /\ save_load w' = (Ok tt, w').
Proof.
  intros Hl Hi Hc Hvn Hvl.
  destruct (register_ok w folder names libs Hl Hi Hc) as (w' & Hrun & Hreg & _).
  exists w'. split; [exact Hrun|].
  apply (save_load_unchanged w' _
           (build_registry_writable _ _ (valid_py_sources _ Hvn)
              (valid_parse_deps _ Hvl)) Hreg).
Qed.

(** C6 on the registered sample project. *)
Lemma save_load_roundtrip_witness :
  Json.writable (build_registry [pystr "a.py"; pystr "b.py"] [pystr "requests"])
  = true /\
  registry_file registered_project
  = Some (Json.dumps
            (build_registry [pystr "a.py"; pystr "b.py"] [pystr "requests"])) /\
  save_load registered_project = (Ok tt, registered_project) /\
  registry_file (snd (save_load registered_project))
  = Some (Json.dumps
            (build_registry [pystr "a.py"; pystr "b.py"] [pystr "requests"])) /\
  ascii_only
    (Json.dumps (build_registry [pystr "a.py"; pystr "b.py"] [pystr "requests"]))
  = true.
Proof.
  split; [reflexivity|]. split; [reflexivity|].
  exact (save_load_roundtrip registered_project
           (build_registry [pystr "a.py"; pystr "b.py"] [pystr "requests"])
           eq_refl eq_refl).
Defined.







(** C9: [debug] and [compile_file] load the registry before they look at
    the alias.  Without a registry file both print the missing-registry
    message, and nothing else, and leave with [SystemExit(1)], whatever the
    alias; so a "not registered" message can only come from a run that found
    a registry file. *)
Theorem missing_registry_precedes_alias_check w dotfile alias :
  registry_file w = None ->
  debug dotfile w = (Raise (SystemExit 1), add_stdout MsgNoProject w) /\
  compile_file alias w = (Raise (SystemExit 1), add_stdout MsgNoProject w) /\
  exit_status (Raise (SystemExit 1) : res unit) = 1%Z /\
  stdout (add_stdout MsgNoProject w) = stdout w ++ [MsgNoProject] /\
  (forall a, stdout (snd (debug dotfile w)) <> stdout w ++ [MsgNotRegistered a]) /\
  (forall a, stdout (snd (compile_file alias w)) <> stdout w ++ [MsgNotRegistered a]).
Proof.
  intros Hf.
  assert (Hd : debug dotfile w = (Raise (SystemExit 1), add_stdout MsgNoProject w)).
  { unfold debug. now rewrite (bind_raise _ _ _ _ _ (load_registry_missing w Hf)). }
  assert (Hc : compile_file alias w
               = (Raise (SystemExit 1), add_stdout MsgNoProject w)).
  { unfold compile_file.
    now rewrite (bind_raise _ _ _ _ _ (load_registry_missing w Hf)). }
  rewrite Hd, Hc. repeat split.
  - intros a H. cbn in H. apply app_inv_head in H. discriminate.
  - intros a H. cbn in H. apply app_inv_head in H. discriminate.
Qed.

(** C9 on the fresh sample project. *)
Lemma missing_registry_precedes_alias_check_witness :
  registry_file fresh_project = None /\
  debug (Some (pystr ".FILE")) fresh_project
  = (Raise (SystemExit 1), add_stdout MsgNoProject fresh_project) /\
  compile_file (pystr ".FILE") fresh_project
  = (Raise (SystemExit 1), add_stdout MsgNoProject fresh_project) /\
  exit_status (Raise (SystemExit 1) : res unit) = 1%Z /\
  stdout (add_stdout MsgNoProject fresh_project)
  = stdout fresh_project ++ [MsgNoProject] /\
  (forall a, stdout (snd (debug (Some (pystr ".FILE")) fresh_project))
             <> stdout fresh_project ++ [MsgNotRegistered a]) /\
  (forall a, stdout (snd (compile_file (pystr ".FILE") fresh_project))
             <> stdout fresh_project ++ [MsgNotRegistered a]).
Proof.
  split; [reflexivity|].
  exact (missing_registry_precedes_alias_check fresh_project
           (Some (pystr ".FILE")) (pystr ".FILE") eq_refl).
Defined.

(** ** Where a [SystemExit] can come from *)

Lemma lift_inv {A} (r r' : res A) w w' :
  lift r w = (r', w') -> r = r' /\ w' = w.
Proof. unfold lift. now intros [= <- <-]. Qed.

Lemma getitem_raises o k e :
  getitem o k = Raise e -> is_Exception e = true.
Proof.
  destruct o; cbn; try (intros [= <-]; reflexivity).
  destruct (dict_get k items0); [discriminate|]. now intros [= <-].
Qed.

Lemma contains_raises o k e :
  contains o k = Raise e -> is_Exception e = true.
Proof. destruct o; cbn; try discriminate; now intros [= <-]. Qed.

Lemma items_raises o e : items o = Raise e -> is_Exception e = true.
Proof. destruct o; cbn; try discriminate; now intros [= <-]. Qed.

Lemma print_entries_ok its : forall w, exists w', print_entries its w = (Ok tt, w').
Proof.
  induction its as [|[k v] its IH]; intros w; [eexists; reflexivity|].
  cbn [print_entries]. unfold bind at 1, print at 1. apply IH.
Qed.

Lemma run_pyinstaller_raises filepath w e w' :
  run_pyinstaller filepath w = (Raise e, w') -> is_Exception e = true.
Proof.
  unfold run_pyinstaller. destruct filepath; intros [= <- <-]; reflexivity.
Qed.

Ltac bind_step H :=
  let a := fresh "a" in
  let w1 := fresh "w1" in
  let E := fresh "E" in
  let e := fresh "e" in
  let Hr := fresh "Hr" in
  apply bind_inv in H;
  destruct H as [(a & w1 & E & H)|(e & E & Hr)].

Ltac lift_step H :=
  let a := fresh "a" in
  let w1 := fresh "w1" in
  let E := fresh "E" in
  let e := fresh "e" in
  let Hr := fresh "Hr" in
  apply bind_inv in H;
  destruct H as [(a & w1 & E & H)|(e & E & Hr)];
  [apply lift_inv in E; destruct E as [E ->]
  |apply lift_inv in E; destruct E as [E ->]; injection Hr as <-;
   first [apply getitem_raises in E | apply contains_raises in E
         | apply items_raises in E]; discriminate E].

Lemma register_system_exit folder w c w' :
  register folder w = (Raise (SystemExit c), w') -> env_exits w c.
Proof.
  unfold register. intros H.
  unfold bind at 1, listdir at 1 in H.
  destruct (listdir_env w (normalize_folder folder)) as [names|];
    [|discriminate].
  unfold bind at 1, input at 1 in H.
  destruct (input_env w) as [libs|]; [|discriminate].
  bind_step H.
  - unfold bind, save_registry, print in H. discriminate.
  - injection Hr as <-. apply ensure_installed_raises in E.
    destruct E as [(tr & dep & E & _)|(rc & E & _)]; [|discriminate].
    left. cbn in E. eauto.
Qed.

Lemma after_load_system_exit {A} (k : json -> M A) w c w' :
  bind load_registry k w = (Raise (SystemExit c), w') ->
  (registry_file w = None /\ c = 1%Z /\ w' = add_stdout MsgNoProject w) \/
  (exists reg, k reg w = (Raise (SystemExit c), w')).
Proof.
  intros H. bind_step H.
  - apply load_registry_inv in E.
    destruct E as [(_ & E & _)|[(_ & E)|(-> & _)]]; try discriminate. eauto.
  - injection Hr as <-. apply load_registry_inv in E.
    destruct E as [(Hf & E & ->)|[(_ & E)|(_ & reg & E)]]; try discriminate.
    injection E as ->. auto.
Qed.

Lemma list_files_system_exit w c w' :
  list_files w = (Raise (SystemExit c), w') ->
  registry_file w = None /\ c = 1%Z /\ w' = add_stdout MsgNoProject w.
Proof.
  unfold list_files. intros H.
  apply after_load_system_exit in H. destruct H as [H|(reg & H)]; [exact H|].
  exfalso. cbv beta in H. unfold bind at 1, print at 1 in H.
  lift_step H. lift_step H.
  destruct (print_entries_ok a0 (add_stdout MsgListHeader w)) as (w2 & E2).
  congruence.
Qed.

Lemma debug_system_exit dotfile w c w' :
  debug dotfile w = (Raise (SystemExit c), w') ->
  (registry_file w = None /\ c = 1%Z /\ w' = add_stdout MsgNoProject w) \/
  env_exits w c.
Proof.
  unfold debug. intros H.
  apply after_load_system_exit in H. destruct H as [H|(reg & H)]; [now left|].
  right. right. cbv beta in H.
  destruct (alias_given dotfile) as [alias|].
  - lift_step H. lift_step H.
    destruct (negb a0); [discriminate|].
    lift_step H. lift_step H.
    now apply debug_loop_raises in H as (tr & p & tb & H & _); eauto.
  - lift_step H. lift_step H.
    now apply debug_loop_raises in H as (tr & p & tb & H & _); eauto.
Qed.

Lemma compile_file_system_exit dotfile w c w' :
  compile_file dotfile w = (Raise (SystemExit c), w') ->
  registry_file w = None /\ c = 1%Z /\ w' = add_stdout MsgNoProject w.
Proof.
  unfold compile_file. intros H.
  apply after_load_system_exit in H. destruct H as [H|(reg & H)]; [exact H|].
  exfalso. cbv beta in H. lift_step H. lift_step H.
  destruct (negb a0); [discriminate|].
  lift_step H. lift_step H.
  unfold bind at 1, print at 1 in H.
  apply run_pyinstaller_raises in H. discriminate.
Qed.

(** C3, as stated, fails in its second half: with a registry file in
    place, a failed dependency installation ends the process with exit
    status 1 without any missing-registry message; and the argument parser
    ends it with status 2 on a usage error. *)
Lemma failed_install_exits_nonzero :
  registry_file (pip_fails (Some sample_registry_text))
  = Some sample_registry_text /\
  parse_args [pystr "--register"; pystr "--folder"; pystr "proj"]
  = Some (ArgsOk (mkNamespace true (Some (pystr "proj")) false DebugNone None)) /\
  exit_status
    (fst (dispatch (mkNamespace true (Some (pystr "proj")) false DebugNone None)
            (pip_fails (Some sample_registry_text)))) = 1%Z /\
  stdout
    (snd (dispatch (mkNamespace true (Some (pystr "proj")) false DebugNone None)
            (pip_fails (Some sample_registry_text))))
  = [MsgPrompt; MsgInstalling (pystr "requests")] /\
  parse_args [pystr "--compile"] = Some ArgsError /\
  exit_status (fst (main_parsed ArgsError (pip_fails (Some sample_registry_text))))
  = 2%Z.
Proof. repeat split; vm_compute; reflexivity. Qed.

(** C3, amended: whenever the registry file does not exist, [load_registry]
    prints the missing-registry message and leaves with [SystemExit(1)],
    exit status 1; and it is the only [SystemExit] of the tool's own
    functions: a dispatched action that ends in a [SystemExit] either met the
    missing registry, or passes on a [SystemExit] raised by an imported
    module or by a registered file. *)
Theorem registry_missing_is_the_tools_exit w :
  (registry_file w = None ->
   load_registry w = (Raise (SystemExit 1), add_stdout MsgNoProject w) /\
   stdout (add_stdout MsgNoProject w) = stdout w ++ [MsgNoProject] /\
   exit_status (fst (load_registry w)) = 1%Z /\
   list_files w = (Raise (SystemExit 1), add_stdout MsgNoProject w)) /\
  (forall args c w',
     dispatch args w = (Raise (SystemExit c), w') ->
     (registry_file w = None /\ c = 1%Z /\ w' = add_stdout MsgNoProject w) \/
     env_exits w c).
Proof.
  split.
  - intros Hf. unfold list_files.
    rewrite (bind_raise _ _ _ _ _ (load_registry_missing w Hf)).
    rewrite (load_registry_missing w Hf). repeat split.
  - intros args c w' H. unfold dispatch in H.
    destruct (select args); cbn [perform] in H.
    + right. eapply register_system_exit; eauto.
    + discriminate.
    + left. now apply list_files_system_exit.
    + eapply debug_system_exit; eauto.
    + left. eapply compile_file_system_exit; eauto.
    + discriminate.
Qed.

(** C3 (amended) for [--list] on the fresh sample project. *)
Lemma registry_missing_is_the_tools_exit_witness :
  registry_file fresh_project = None /\
  load_registry fresh_project
  = (Raise (SystemExit 1), add_stdout MsgNoProject fresh_project) /\
  exit_status (fst (load_registry fresh_project)) = 1%Z /\
  dispatch (mkNamespace false None true DebugNone None) fresh_project
  = (Raise (SystemExit 1), add_stdout MsgNoProject fresh_project) /\
  ((registry_file fresh_project = None /\ 1%Z = 1%Z
    /\ add_stdout MsgNoProject fresh_project
       = add_stdout MsgNoProject fresh_project) \/
   env_exits fresh_project 1).
Proof.
  split; [reflexivity|].
  destruct (registry_missing_is_the_tools_exit fresh_project) as [H1 H2].
  destruct (H1 eq_refl) as (Ha & _ & Hb & _).
  split; [exact Ha|]. split; [exact Hb|]. split; [reflexivity|].
  exact (H2 (mkNamespace false None true DebugNone None) 1%Z
            (add_stdout MsgNoProject fresh_project) eq_refl).
Defined.

(** C7, as stated, fails: with [--register] and no [--folder] the
    dispatcher runs none of register, list, debug, compile and help; it
    prints a usage line and returns.  And [--debug] with the empty string
    for alias does not run debug: the help is printed. *)
Lemma register_without_folder_runs_nothing :
  parse_args [pystr "--register"]
  = Some (ArgsOk (mkNamespace true None false DebugNone None)) /\
  select (mkNamespace true None false DebugNone None) = ActUsage /\
  dispatch (mkNamespace true None false DebugNone None) registered_project
  = (Ok tt, add_stdout MsgUsage registered_project) /\
  stdout (add_stdout MsgUsage registered_project) = [MsgUsage] /\
  events (add_stdout MsgUsage registered_project) = [] /\
  registry_file (add_stdout MsgUsage registered_project)
  = registry_file registered_project /\
  parse_args [pystr "--debug"; []]
  = Some (ArgsOk (mkNamespace false None false (DebugStr []) None)) /\
  select (mkNamespace false None false (DebugStr []) None) = ActHelp.
Proof. repeat split. Qed.

(** C7, amended: the dispatcher takes exactly one branch, the first of
    register, list, debug, compile whose flag is set and help when none is.
    The register branch calls [register] when [--folder] has a non-empty
    value and prints a usage line, calling nothing, otherwise; the debug
    branch runs all registered files for a bare [--debug] and the one alias
    for [--debug ALIAS]; the compile branch calls [compile_file]. *)
Theorem dispatch_first_match args :
  branch_of (select args) = spec_branch args /\
  dispatch args = perform (select args) /\
  (forall w, perform ActUsage w = (Ok tt, add_stdout MsgUsage w)) /\
  (spec_branch args = BrRegister ->
   select args = match ns_folder args with
                 | Some folder => if truthy folder then ActRegister folder
                                  else ActUsage
                 | None => ActUsage
                 end) /\
  (spec_branch args = BrList -> select args = ActList) /\
  (spec_branch args = BrDebug ->
   (ns_debug args = DebugTrue /\ select args = ActDebug None) \/
   (exists alias, ns_debug args = DebugStr alias /\ alias <> [] /\
                  select args = ActDebug (Some alias))) /\
  (spec_branch args = BrCompile ->
   exists alias, ns_compile args = Some alias /\ alias <> [] /\
                 select args = ActCompile alias) /\
  (spec_branch args = BrHelp -> select args = ActHelp).
Proof.
  destruct args as [r f l d c]. unfold spec_branch, select, dispatch.
  cbn [ns_register ns_folder ns_list ns_debug ns_compile].
  destruct r.
  { repeat split; try discriminate.
    destruct f as [[|x f]|]; reflexivity. }
  destruct l. { repeat split; discriminate. }
  destruct d as [| |[|x alias]]; cbn [debug_truthy truthy].
  - destruct c as [[|x c]|]; cbn [opt_truthy truthy branch_of];
      repeat split; try discriminate.
    intros _. exists (x :: c). repeat split. discriminate.
  - repeat split; try discriminate. intros _. left. split; reflexivity.
  - destruct c as [[|x c]|]; cbn [opt_truthy truthy branch_of];
      repeat split; try discriminate.
    intros _. exists (x :: c). repeat split. discriminate.
  - repeat split; try discriminate. intros _. right.
    exists (x :: alias). repeat split. discriminate.
Qed.

(** C7 (amended) for [--debug .FILE2 --compile .FILE]. *)
Lemma dispatch_first_match_witness :
  spec_branch (mkNamespace false None false (DebugStr (pystr ".FILE2"))
                 (Some (pystr ".FILE"))) = BrDebug /\
  ((ns_debug (mkNamespace false None false (DebugStr (pystr ".FILE2"))
                (Some (pystr ".FILE"))) = DebugTrue /\
    select (mkNamespace false None false (DebugStr (pystr ".FILE2"))
              (Some (pystr ".FILE"))) = ActDebug None) \/
   (exists alias,
      ns_debug (mkNamespace false None false (DebugStr (pystr ".FILE2"))
                  (Some (pystr ".FILE"))) = DebugStr alias /\
      alias <> [] /\
      select (mkNamespace false None false (DebugStr (pystr ".FILE2"))
                (Some (pystr ".FILE"))) = ActDebug (Some alias))).
Proof.
  split; [reflexivity|].
  exact (proj1 (proj2 (proj2 (proj2 (proj2 (proj2
           (dispatch_first_match
              (mkNamespace false None false (DebugStr (pystr ".FILE2"))
                 (Some (pystr ".FILE"))))))))) eq_refl).
Defined.

(** C10: [--debug] followed by the empty string stores the empty string
    in [args.debug]; it is falsy, so the debug branch is skipped and, with
    neither [--register] nor [--list], the dispatcher goes on to the compile
    branch (when [--compile] has a non-empty value) or prints the help.
    Whatever the command line, [debug] is never called with the empty
    string. *)
Theorem empty_debug_alias_falls_through args :
  ns_debug args = DebugStr [] ->
  parse_args [pystr "--debug"; []]
  = Some (ArgsOk (mkNamespace false None false (DebugStr []) None)) /\
  select (mkNamespace false None false (DebugStr []) None) = ActHelp /\
  (forall alias,
     classify alias = Value -> alias <> [] ->
     parse_args [pystr "--debug"; []; pystr "--compile"; alias]
     = Some (ArgsOk (mkNamespace false None false (DebugStr []) (Some alias))) /\
     select (mkNamespace false None false (DebugStr []) (Some alias))
     = ActCompile alias) /\
  (forall dotfile, select args <> ActDebug dotfile) /\
  (ns_register args = false -> ns_list args = false ->
   select args = match ns_compile args with
                 | Some alias => if truthy alias then ActCompile alias else ActHelp
                 | None => ActHelp
                 end) /\
  (forall args', select args' <> ActDebug (Some [])).
Proof.
  intros Hd. split; [reflexivity|]. split; [reflexivity|].
  split; [|split; [|split]].
  - intros alias Hv Hne. split.
    + unfold parse_args.
      change (parse_loop empty_namespace false
                [pystr "--debug"; []; pystr "--compile"; alias])
        with (match classify alias with
              | Value =>
                  parse_loop
                    (with_compile alias
                       (with_debug (DebugStr []) empty_namespace)) false []
              | Opt _ _ => Some ArgsError
              | Unmodelled => None
              end).
      now rewrite Hv.
    + destruct alias; [congruence|reflexivity].
  - intros dotfile. unfold select. rewrite Hd. cbn [debug_truthy truthy].
    destruct (ns_register args);
      [destruct (ns_folder args) as [[|x f]|]; discriminate|].
    destruct (ns_list args); [discriminate|].
    destruct (ns_compile args) as [[|x a]|]; discriminate.
  - intros Hr Hl. unfold select. rewrite Hr, Hl, Hd. reflexivity.
  - intros [r f l d c]. unfold select.
    cbn [ns_register ns_folder ns_list ns_debug ns_compile].
    destruct r; [destruct f as [[|x f]|]; discriminate|].
    destruct l; [discriminate|].
    destruct d as [| |[|x a]]; cbn [debug_truthy truthy];
      try discriminate;
      destruct c as [[|y c]|]; discriminate.
Qed.

(** C10 for [--debug] with the empty string and [--compile .FILE]. *)
Lemma empty_debug_alias_falls_through_witness :
  ns_debug (mkNamespace false None false (DebugStr []) (Some (pystr ".FILE")))
  = DebugStr [] /\
  select (mkNamespace false None false (DebugStr []) (Some (pystr ".FILE")))
  = ActCompile (pystr ".FILE") /\
  parse_args [pystr "--debug"; []]
  = Some (ArgsOk (mkNamespace false None false (DebugStr []) None)) /\
  select (mkNamespace false None false (DebugStr []) None) = ActHelp.
Proof.
  split; [reflexivity|].
  destruct (empty_debug_alias_falls_through
              (mkNamespace false None false (DebugStr []) (Some (pystr ".FILE")))
              eq_refl) as (H1 & H2 & _ & _ & H5 & _).
  split; [exact (H5 eq_refl eq_refl)|]. split; [exact H1|exact H2].
Defined.

(* ===================================================================== *)
(** * Further properties of the script *)
(* ===================================================================== *)

(** ** Listing *)





(** ** What is read back after [register] *)





(** ** Folders *)

(** X3: only the word [current] is rewritten, to the working directory;
    the result is never [current], so normalising twice changes nothing, and
    [register] on [current] is [register] on [.]: it fails when the working
    directory cannot be listed, whether or not a folder called [current]
    exists. *)
Theorem normalize_folder_sentinel folder :
  (folder <> pystr "current" -> normalize_folder folder = folder) /\
  normalize_folder (pystr "current") = pystr "." /\
  normalize_folder folder <> pystr "current" /\
  normalize_folder (normalize_folder folder) = normalize_folder folder /\
  (forall w, register (pystr "current") w = register (pystr ".") w) /\
  (forall w, listdir_env w (pystr ".") = None ->
             register (pystr "current") w = (Raise OSError, w)).
Proof.
  assert (Hne : forall f, f <> pystr "current" -> normalize_folder f = f).
  { intros f Hf. unfold normalize_folder.
    destruct (str_eqb f (pystr "current")) eqn:E; [|reflexivity].
    apply str_eqb_eq in E. contradiction. }
  assert (Hnc : normalize_folder folder <> pystr "current").
  { unfold normalize_folder.
    destruct (str_eqb folder (pystr "current")) eqn:E; [discriminate|].
    now apply str_eqb_neq. }
  split; [apply Hne|]. split; [reflexivity|]. split; [exact Hnc|].
  split; [now apply Hne|]. split; [reflexivity|].
  intros w Hl. unfold register.
  change (normalize_folder (pystr "current")) with (pystr ".").
  unfold bind at 1, listdir at 1. now rewrite Hl.
Qed.

(** X3 on a folder called [src]. *)
Lemma normalize_folder_sentinel_witness :
  pystr "src" <> pystr "current" /\
  normalize_folder (pystr "src") = pystr "src".
Proof.
  split; [discriminate|].
  exact (proj1 (normalize_folder_sentinel (pystr "src")) ltac:(discriminate)).
Defined.

(** ** Dependency names *)

Lemma split_no_sep sep s :
  Forall (fun p => ~ In sep p) (split sep s).
Proof.
  induction s as [|c s IH]; cbn [split]; [repeat constructor; tauto|].
  destruct (N.eqb_spec c sep) as [->|Hne].
  - constructor; [tauto|exact IH].
  - destruct (split sep s) as [|p ps]; [repeat constructor; cbn; intuition|].
    inversion IH as [|? ? Hp Hps]; subst. constructor; [|exact Hps].
    cbn. intros [H|H]; [congruence|tauto].
Qed.

Lemma lstrip_suffix s : exists t, s = t ++ lstrip s.
Proof.
  induction s as [|c s [t IH]]; [exists []; reflexivity|].
  cbn [lstrip]. destruct (is_space c).
  - exists (c :: t). cbn. now rewrite <- IH.
  - exists []. reflexivity.
Qed.

Lemma lstrip_head s c r : lstrip s = c :: r -> is_space c = false.
Proof.
  induction s as [|x s IH]; [discriminate|]. cbn [lstrip].
  destruct (is_space x) eqn:E; [exact IH|]. now intros [= <- _].
Qed.

Lemma lstrip_fixed s : is_space (hd 0 s) = false -> lstrip s = s.
Proof. destruct s as [|c s]; [reflexivity|]. cbn. now intros ->. Qed.

Lemma rstrip_prefix s : exists t, s = rstrip s ++ t.
Proof.
  unfold rstrip. destruct (lstrip_suffix (rev s)) as [t H].
  exists (rev t). rewrite <- rev_app_distr, <- H. now rewrite rev_involutive.
Qed.

Lemma rstrip_last s r c : rstrip s = r ++ [c] -> is_space c = false.
Proof.
  unfold rstrip. intros H. apply (f_equal (@rev N)) in H.
  rewrite rev_involutive, rev_app_distr in H. cbn in H.
  now apply lstrip_head in H.
Qed.

Lemma hd_app_nonempty (a b : str) : a <> [] -> hd 0 (a ++ b) = hd 0 a.
Proof. destruct a; [congruence|reflexivity]. Qed.

Lemma strip_In c s : In c (strip s) -> In c s.
Proof.
  unfold strip. intros H.
  destruct (rstrip_prefix (lstrip s)) as [t Ht].
  destruct (lstrip_suffix s) as [u Hu].
  rewrite Hu, Ht. apply in_or_app. right. apply in_or_app. now left.
Qed.

Lemma strip_clean_ends s :
  strip s <> [] ->
  is_space (hd 0 (strip s)) = false /\ is_space (last (strip s) 0) = false.
Proof.
  intros Hne. split.
  - unfold strip in *. destruct (rstrip_prefix (lstrip s)) as [t Ht].
    destruct (rstrip (lstrip s)) as [|c r] eqn:E; [congruence|].
    cbn [hd]. cbn in Ht. now apply lstrip_head in Ht.
  - destruct (exists_last Hne) as (r & c & E). rewrite E, last_last.
    unfold strip in E. now apply rstrip_last in E.
Qed.

(** X4: every name [parse_deps] yields is clean: it is not empty, holds no
    comma and has no white space at either end. *)
Theorem parse_deps_entries_clean libs :
  forallb clean_dep (parse_deps libs) = true.
Proof.
  unfold parse_deps. pose proof (split_no_sep 44 libs) as Hsep.
  induction (split 44 libs) as [|lib l IH]; [reflexivity|].
  inversion Hsep as [|? ? Hlib Hl]; subst. cbn [flat_map].
  rewrite forallb_app, (IH Hl), andb_true_r.
  destruct (truthy (strip lib)) eqn:Ht; [|reflexivity].
  cbn [forallb]. rewrite andb_true_r. unfold clean_dep. rewrite Ht.
  assert (Hne : strip lib <> []) by (destruct (strip lib); [discriminate|congruence]).
  destruct (strip_clean_ends lib Hne) as [-> ->].
  cbn [negb andb]. rewrite !andb_true_r. apply negb_true_iff.
  apply not_true_is_false. intros E. apply existsb_exists in E.
  destruct E as (c & Hc & E). apply N.eqb_eq in E. subst c.
  apply Hlib. now apply strip_In.
Qed.

Lemma split_clean sep d :
  ~ In sep d -> split sep d = [d].
Proof.
  induction d as [|c d IH]; [reflexivity|]. intros H. cbn [split].
  destruct (N.eqb_spec c sep) as [->|_]; [destruct H; now left|].
  rewrite IH; [reflexivity|]. intros Hin. apply H. now right.
Qed.

Lemma split_app_sep sep d rest :
  ~ In sep d -> split sep (d ++ sep :: rest) = d :: split sep rest.
Proof.
  induction d as [|c d IH]; intros H.
  - cbn. now rewrite N.eqb_refl.
  - cbn [app split]. destruct (N.eqb_spec c sep) as [->|_]; [destruct H; now left|].
    rewrite IH; [reflexivity|]. intros Hin. apply H. now right.
Qed.

Lemma clean_dep_inv d :
  clean_dep d = true ->
  d <> [] /\ ~ In 44 d /\ is_space (hd 0 d) = false /\ is_space (last d 0) = false.
Proof.
  unfold clean_dep. rewrite !andb_true_iff, !negb_true_iff.
  intros [[[Ht Hc] Hh] Hl]. repeat split; auto.
  - destruct d; [discriminate|congruence].
  - intros Hin. apply not_true_iff_false in Hc. apply Hc.
    apply existsb_exists. exists 44. split; [exact Hin|reflexivity].
Qed.

Lemma strip_clean d : clean_dep d = true -> strip d = d.
Proof.
  intros H. apply clean_dep_inv in H. destruct H as (Hne & _ & Hh & Hl).
  unfold strip. rewrite (lstrip_fixed d Hh). unfold rstrip.
  rewrite lstrip_fixed; [apply rev_involutive|].
  destruct (exists_last Hne) as (r & c & ->).
  rewrite last_last in Hl. rewrite rev_app_distr. exact Hl.
Qed.

Lemma split_join_deps d ds :
  forallb clean_dep (d :: ds) = true ->
  split 44 (join_with (pystr ", ") (d :: ds)) = d :: map (cons 32) ds.
Proof.
  revert d. induction ds as [|d' ds IH]; intros d H.
  - cbn [join_with map]. cbn [forallb] in H. apply andb_true_iff in H.
    destruct H as [H _]. apply split_clean. now apply clean_dep_inv in H.
  - cbn [forallb] in H. apply andb_true_iff in H. destruct H as [Hd Hds].
    change (join_with (pystr ", ") (d :: d' :: ds))
      with (d ++ 44 :: 32 :: join_with (pystr ", ") (d' :: ds)).
    rewrite split_app_sep by (now apply clean_dep_inv in Hd).
    f_equal. cbn [split]. change (32 =? 44) with false. cbv iota.
    now rewrite (IH d' Hds).
Qed.

(** X5: typing clean names separated by a comma and a space, as the prompt
    asks, gives exactly these names back, in order. *)
Theorem parse_deps_of_joined ds :
  forallb clean_dep ds = true ->
  parse_deps (join_with (pystr ", ") ds) = ds.
Proof.
  destruct ds as [|d ds]; [reflexivity|]. intros H.
  unfold parse_deps. rewrite (split_join_deps d ds H).
  cbn [forallb] in H. apply andb_true_iff in H. destruct H as [Hd Hds].
  cbn [flat_map]. rewrite (strip_clean d Hd).
  replace (truthy d) with true
    by (apply clean_dep_inv in Hd; destruct d; [tauto|reflexivity]).
  cbn [app]. f_equal.
  induction ds as [|d' ds IH]; [reflexivity|].
  cbn [forallb] in Hds. apply andb_true_iff in Hds. destruct Hds as [Hd' Hds].
  cbn [map flat_map].
  assert (Hs : strip (32 :: d') = d').
  { unfold strip. cbn [lstrip]. change (is_space 32) with true. cbv iota.
    apply (strip_clean d' Hd'). }
  rewrite Hs.
  replace (truthy d') with true
    by (apply clean_dep_inv in Hd'; destruct d'; [tauto|reflexivity]).
  cbn [app]. f_equal. now apply IH.
Qed.

(** X5 on three library names. *)
Lemma parse_deps_of_joined_witness :
  forallb clean_dep [pystr "numpy"; pystr "requests"; pystr "scikit-learn"] = true /\
  parse_deps
    (join_with (pystr ", ")
       [pystr "numpy"; pystr "requests"; pystr "scikit-learn"])
  = [pystr "numpy"; pystr "requests"; pystr "scikit-learn"].
Proof.
  split; [reflexivity|].
  exact (parse_deps_of_joined
           [pystr "numpy"; pystr "requests"; pystr "scikit-learn"] eq_refl).
Defined.

(** ** Aliases *)

Lemma dict_get_alias_items l :
  forall a i,
    (a <= i)%nat ->
    dict_get (alias_key i) (map alias_item (combine (seq a (length l)) l))
    = option_map JStr (nth_error l (i - a)).
Proof.
  induction l as [|f l IH]; intros a i Hle.
  - cbn. now destruct (i - a)%nat.
  - cbn [length seq combine map dict_get alias_item fst snd].
    destruct (str_eqb (alias_key i) (alias_key a)) eqn:E.
    + apply str_eqb_eq, alias_key_inj in E. subst.
      now rewrite Nat.sub_diag.
    + assert (Hlt : (a < i)%nat).
      { destruct (Nat.eq_dec a i) as [->|]; [|lia].
        now rewrite str_eqb_refl in E. }
      rewrite (IH (S a) i) by lia.
      replace (i - a)%nat with (S (i - S a)) by lia. reflexivity.
Qed.

(** X6: in the mapping [register] builds, the alias of index i is bound to
    the i-th source file, and to nothing past the last one; the mapping has
    as many entries as there are source files. *)
Theorem alias_lookup py_files i :
  dict_get (alias_key i) (assign_aliases py_files)
  = option_map JStr (nth_error py_files i) /\
  length (assign_aliases py_files) = length py_files.
Proof.
  rewrite assign_aliases_items. unfold enumerate. split.
  - rewrite dict_get_alias_items by lia. now rewrite Nat.sub_0_r.
  - now rewrite length_map, length_combine, length_seq, Nat.min_id.
Qed.

(** ** One registered file *)





(** ** Installing *)

(** X9: when every dependency can be imported, [ensure_installed] imports
    each of them once, in order, and returns: it prints nothing and starts
    no [pip]. *)
Theorem ensure_installed_all_importable deps :
  forall w,
    (forall tr dep, In dep deps -> import_env w tr dep = None) ->
    exists w',
      ensure_installed deps w = (Ok tt, w') /\
      events w' = events w ++ map EvImport deps /\
      stdout w' = stdout w /\
      registry_file w' = registry_file w.
Proof.
  induction deps as [|dep deps IH]; intros w H.
  - exists w. cbn. rewrite app_nil_r. repeat split.
  - cbn [ensure_installed]. unfold bind at 1, py_import at 1.
    rewrite (H (events w) dep (or_introl eq_refl)).
    destruct (IH (add_event (EvImport dep) w)) as (w' & Hrun & Hev & Hout & Hreg).
    { intros tr d Hin. cbn. apply H. now right. }
    exists w'. rewrite Hrun, Hev, Hout, Hreg. cbn. rewrite <- app_assoc.
    repeat split.
Qed.

(** X9 on two dependencies of the fresh sample project. *)
Lemma ensure_installed_all_importable_witness :
  (forall tr dep, In dep [pystr "numpy"; pystr "requests"] ->
                  import_env fresh_project tr dep = None) /\
  exists w',
    ensure_installed [pystr "numpy"; pystr "requests"] fresh_project = (Ok tt, w') /\
    events w' = events fresh_project
                ++ map EvImport [pystr "numpy"; pystr "requests"] /\
    stdout w' = stdout fresh_project /\
    registry_file w' = registry_file fresh_project.
Proof.
  assert (H : forall tr dep, In dep [pystr "numpy"; pystr "requests"] ->
                             import_env fresh_project tr dep = None)
    by (intros tr dep _; reflexivity).
  split; [exact H|].
  exact (ensure_installed_all_importable [pystr "numpy"; pystr "requests"]
           fresh_project H).
Defined.

Lemma ensure_installed_calls deps :
  forall w r w',
    ensure_installed deps w = (r, w') ->
    exists new,
      events w' = events w ++ new /\
      forallb is_install_event new = true /\
      (forall dep, In (EvImport dep) new -> In dep deps) /\
      (forall dep, In (EvPipInstall dep) new ->
                   In dep deps /\
                   exists tr e, import_env w tr dep = Some e
                                /\ is_ImportError e = true).
Proof.
  induction deps as [|dep deps IH]; intros w r w' H.
  - injection H as <- <-. exists []. rewrite app_nil_r.
    split; [reflexivity|]. split; [reflexivity|]. split; intros d [].
  - cbn [ensure_installed] in H. unfold bind at 1, py_import at 1 in H.
    destruct (import_env w (events w) dep) as [e|] eqn:Ei.
    + destruct (is_ImportError e) eqn:Hie.
      * unfold bind at 1, print at 1 in H.
        unfold bind at 1, check_call_pip at 1 in H.
        cbn [events add_stdout add_event pip_env] in H.
        destruct (pip_env w (events w ++ [EvImport dep]) dep =? 0)%Z.
        -- apply IH in H. destruct H as (new & Hev & Hall & Himp & Hpip).
           cbn in Hev, Hpip. exists (EvImport dep :: EvPipInstall dep :: new).
           rewrite Hev, <- !app_assoc. split; [reflexivity|].
           split; [cbn; exact Hall|]. split.
           ++ intros d [E|[E|Hin]]; [injection E as <-; now left|discriminate|].
              right. now apply Himp.
           ++ intros d [E|[E|Hin]]; [discriminate|injection E as <-|].
              ** split; [now left|eauto].
              ** destruct (Hpip d Hin) as [H1 H2]. split; [now right|exact H2].
        -- injection H as <- <-. exists [EvImport dep; EvPipInstall dep].
           cbn. rewrite <- app_assoc. split; [reflexivity|].
           split; [reflexivity|]. split.
           ++ intros d [E|[E|[]]]; [injection E as <-; now left|discriminate].
           ++ intros d [E|[E|[]]]; [discriminate|injection E as <-].
              split; [now left|eauto].
      * injection H as <- <-. exists [EvImport dep]. cbn.
        split; [reflexivity|]. split; [reflexivity|]. split.
        -- intros d [E|[]]. injection E as <-. now left.
        -- intros d [E|[]]. discriminate.
    + apply IH in H. destruct H as (new & Hev & Hall & Himp & Hpip).
      cbn in Hev, Hpip. exists (EvImport dep :: new).
      rewrite Hev, <- app_assoc. split; [reflexivity|].
      split; [cbn; exact Hall|]. split.
      * intros d [E|Hin]; [injection E as <-; now left|]. right. now apply Himp.
      * intros d [E|Hin]; [discriminate|].
        destruct (Hpip d Hin) as [H1 H2]. split; [now right|exact H2].
Qed.

(** X10: whatever happens, the only external calls of [register] are
    imports and [pip] runs for the names parsed from the input line, a [pip]
    run only for a name whose import raised an [ImportError]: it runs no
    registered file and starts no bundler. *)
Theorem register_external_calls folder w :
  exists new,
    events (snd (register folder w)) = events w ++ new /\
    forallb is_install_event new = true /\
    (forall dep, In (EvImport dep) new \/ In (EvPipInstall dep) new ->
                 exists libs, input_env w = Some libs /\ In dep (parse_deps libs)) /\
    (forall dep, In (EvPipInstall dep) new ->
                 exists tr e, import_env w tr dep = Some e
                              /\ is_ImportError e = true).
Proof.
  unfold register. unfold bind at 1, listdir at 1.
  destruct (listdir_env w (normalize_folder folder)) as [names|].
  2:{ exists []. cbn. rewrite app_nil_r.
      split; [reflexivity|]. split; [reflexivity|].
      split; [intros d [[]|[]]|intros d []]. }
  unfold bind at 1, input at 1.
  destruct (input_env w) as [libs|].
  2:{ exists []. cbn. rewrite app_nil_r.
      split; [reflexivity|]. split; [reflexivity|].
      split; [intros d [[]|[]]|intros d []]. }
  destruct (ensure_installed (parse_deps libs) (add_stdout MsgPrompt w))
    as [r w1] eqn:E.
  destruct (ensure_installed_calls _ _ _ _ E) as (new & Hev & Hall & Himp & Hpip).
  cbn in Hev, Hpip. exists new.
  assert (Hevents : events
                      (snd
                         (bind (ensure_installed (parse_deps libs))
                            (fun _ =>
                               bind (save_registry
                                       (build_registry (py_sources names)
                                          (parse_deps libs)))
                                 (fun _ => print MsgRegistered))
                            (add_stdout MsgPrompt w)))
                    = events w1).
  { unfold bind at 1. rewrite E. destruct r; reflexivity. }
  rewrite Hevents, Hev. split; [reflexivity|]. split; [exact Hall|]. split.
  - intros d [Hin|Hin]; exists libs; split; try reflexivity.
    + now apply Himp.
    + now apply Hpip.
  - intros d Hin. now apply Hpip.
Qed.

(** ** Saving and loading *)

Lemma plain_str_facts s :
  plain_str s = true -> valid_str s = true /\ Json.join_pairs s = s.
Proof.
  induction s as [|c s IH]; [split; reflexivity|].
  cbn [plain_str forallb]. rewrite !andb_true_iff, negb_true_iff.
  intros [[Hv Hh] Hs]. destruct (IH Hs) as [IH1 IH2]. split.
  - cbn [valid_str forallb]. rewrite Hv. exact IH1.
  - now rewrite JsonFacts.join_pairs_not_high, IH2.
Qed.

Lemma plain_facts v :
  plain v = true -> Json.writable v = true /\ Json.normalize v = v.
Proof.
  induction v as [| | |s|l IH|d IH] using json_nested_ind;
    cbn [plain]; try discriminate; intros Hp.
  - destruct (plain_str_facts s Hp) as [H1 H2].
    cbn [Json.writable Json.normalize]. now rewrite H2.
  - assert (H : forallb Json.writable l = true /\ map Json.normalize l = l).
    { induction IH as [|x l Hx _ IHl]; [split; reflexivity|].
      cbn [forallb] in Hp. apply andb_true_iff in Hp. destruct Hp as [Hpx Hpl].
      destruct (Hx Hpx) as [H1 H2]. destruct (IHl Hpl) as [H3 H4].
      cbn [forallb map]. now rewrite H1, H2, H3, H4. }
    destruct H as [H1 H2]. cbn [Json.writable Json.normalize]. now rewrite H2.
  - apply andb_true_iff in Hp. destruct Hp as [Hk Hp].
    assert (H : forallb (fun kv => valid_str (fst kv) && Json.writable (snd kv)) d
                = true /\
                map (fun kv => (Json.join_pairs (fst kv), Json.normalize (snd kv))) d
                = d).
    { clear Hk. induction IH as [|[k x] d Hx _ IHd]; [split; reflexivity|].
      cbn [forallb fst snd] in Hp, Hx. apply andb_true_iff in Hp.
      destruct Hp as [Hpx Hpd]. apply andb_true_iff in Hpx.
      destruct Hpx as [Hpk Hpv].
      destruct (plain_str_facts k Hpk) as [K1 K2].
      destruct (Hx Hpv) as [H1 H2]. destruct (IHd Hpd) as [H3 H4].
      cbn [forallb map fst snd]. now rewrite K1, K2, H1, H2, H3, H4. }
    destruct H as [H1 H2]. cbn [Json.writable Json.normalize].
    rewrite H2, H1, andb_true_r. split; [|reflexivity].
    rewrite <- Hk. f_equal.
    rewrite <- (map_map fst Json.join_pairs), <- (map_id (map fst d)) at 1.
    rewrite <- H2 at 2. rewrite !map_map. cbn [fst].
    rewrite <- H2 at 1. rewrite !map_map. cbn [fst].
    apply map_ext_in. intros [k x] Hin. cbn [fst].
    rewrite forallb_forall in Hp. specialize (Hp _ Hin). cbn [fst] in Hp.
    apply andb_true_iff in Hp. destruct Hp as [Hpk _].
    destruct (plain_str_facts k Hpk) as [_ K2]. now rewrite K2.
Qed.

(** X11: what [save_registry] writes for a plain value, [load_registry]
    reads back as that very value: same strings, same order of keys and
    items.  Nothing is printed and no call is made. *)
Theorem save_then_load w data :
  plain data = true ->
  (save_registry data ;; load_registry) w
  = (Ok data, set_registry_file (Some (Json.dumps data)) w).
Proof.
  intros Hp. destruct (plain_facts data Hp) as [Hw Hn].
  unfold bind, save_registry, load_registry. cbn [registry_file set_registry_file].
  now rewrite (JsonFacts.loads_dumps data Hw), Hn.
Qed.

(** X11 for the registry of two files and one dependency. *)
Lemma save_then_load_witness :
  plain (build_registry [pystr "a.py"; pystr "b.py"] [pystr "requests"]) = true /\
  (save_registry (build_registry [pystr "a.py"; pystr "b.py"] [pystr "requests"]) ;;
   load_registry) fresh_project
  = (Ok (build_registry [pystr "a.py"; pystr "b.py"] [pystr "requests"]),
     set_registry_file (Some sample_registry_text) fresh_project).
Proof.
  split; [reflexivity|].
  exact (save_then_load fresh_project
           (build_registry [pystr "a.py"; pystr "b.py"] [pystr "requests"])
           eq_refl).
Defined.

(** X12: the written text determines the value: two writable values with
    the same text are read back as the same value, and two plain values with
    the same text are equal. *)
Theorem dumps_determines_value v1 v2 :
  Json.dumps v1 = Json.dumps v2 ->
  (Json.writable v1 = true -> Json.writable v2 = true ->
   Json.normalize v1 = Json.normalize v2) /\
  (plain v1 = true -> plain v2 = true -> v1 = v2).
Proof.
  intros E.
  assert (H : Json.writable v1 = true -> Json.writable v2 = true ->
              Json.normalize v1 = Json.normalize v2).
  { intros H1 H2. pose proof (JsonFacts.loads_dumps v1 H1) as L1.
    rewrite E, (JsonFacts.loads_dumps v2 H2) in L1. now injection L1. }
  split; [exact H|]. intros P1 P2.
  destruct (plain_facts v1 P1) as [W1 N1]. destruct (plain_facts v2 P2) as [W2 N2].
  rewrite <- N1, <- N2. now apply H.
Qed.

(** X12 on a string holding a surrogate pair in two code points and the
    same text in one. *)
Lemma dumps_determines_value_witness :
  Json.dumps (JStr [0xd83d; 0xde00]) = Json.dumps (JStr [0x1f600]) /\
  Json.normalize (JStr [0xd83d; 0xde00]) = Json.normalize (JStr [0x1f600]).
Proof.
  split; [reflexivity|].
  exact (proj1 (dumps_determines_value (JStr [0xd83d; 0xde00]) (JStr [0x1f600])
                  eq_refl) eq_refl eq_refl).
Defined.

Lemma loads_blank text : Json.skip_ws text = [] -> Json.loads text = None.
Proof.
  intros H. unfold Json.loads. rewrite H.
  destruct text as [|c r]; [reflexivity|].
  cbn [Json.skip_ws] in H. cbn [startswith].
  destruct (N.eqb_spec c 32) as [->|]; [reflexivity|].
  destruct (N.eqb_spec c 9) as [->|]; [reflexivity|].
  destruct (N.eqb_spec c 10) as [->|]; [reflexivity|].
  destruct (N.eqb_spec c 13) as [->|]; [reflexivity|].
  cbn [orb] in H. discriminate.
Qed.

(** X13: a registry file that exists but is empty, or holds white space
    only, is not the missing registry: [load_registry] raises a
    [JSONDecodeError] and prints nothing, and so do [list_files], [debug] and
    [compile_file]; the process ends with exit status 1. *)
Theorem blank_registry_is_a_decode_error w text dotfile alias :
  registry_file w = Some text ->
  Json.skip_ws text = [] ->
  load_registry w = (Raise JSONDecodeError, w) /\
  list_files w = (Raise JSONDecodeError, w) /\
  debug dotfile w = (Raise JSONDecodeError, w) /\
  compile_file alias w = (Raise JSONDecodeError, w) /\
  exit_status (fst (load_registry w)) = 1%Z.
Proof.
  intros Hf Hb.
  assert (Hl : load_registry w = (Raise JSONDecodeError, w)).
  { unfold load_registry. now rewrite Hf, (loads_blank text Hb). }
  unfold list_files, debug, compile_file.
  rewrite !(bind_raise _ _ _ _ _ Hl), Hl. repeat split.
Qed.

(** X13 on an empty registry file. *)
Lemma blank_registry_is_a_decode_error_witness :
  registry_file (set_registry_file (Some []) fresh_project) = Some [] /\
  Json.skip_ws [] = [] /\
  load_registry (set_registry_file (Some []) fresh_project)
  = (Raise JSONDecodeError, set_registry_file (Some []) fresh_project) /\
  list_files (set_registry_file (Some []) fresh_project)
  = (Raise JSONDecodeError, set_registry_file (Some []) fresh_project).
Proof.
  split; [reflexivity|]. split; [reflexivity|].
  destruct (blank_registry_is_a_decode_error
              (set_registry_file (Some []) fresh_project) [] None []
              eq_refl eq_refl) as (H1 & H2 & _).
  split; [exact H1|exact H2].
Defined.

(** ** Registering an empty project *)

(** X14: a folder without any entry ending in [.py], with an input line
    that names no dependency, is registered all the same: [register] prints
    the prompt and the success message, imports and installs nothing, and
    writes the registry of an empty mapping and an empty list. *)
Theorem register_empty_project w folder names libs :
  listdir_env w (normalize_folder folder) = Some names ->
  py_sources names = [] ->
  input_env w = Some libs ->
  parse_deps libs = [] ->
  register folder w
  = (Ok tt,
     add_stdout MsgRegistered
       (set_registry_file (Some empty_registry_text) (add_stdout MsgPrompt w))) /\
  stdout (snd (register folder w)) = stdout w ++ [MsgPrompt; MsgRegistered] /\
  events (snd (register folder w)) = events w /\
  Json.loads empty_registry_text
  = Some (JObj [(REGISTRY_KEY_FILES, JObj []); (REGISTRY_KEY_DEPENDENCIES, JArr [])]).
Proof.
  intros Hl Hp Hi Hd.
  assert (Hrun : register folder w
                 = (Ok tt,
                    add_stdout MsgRegistered
                      (set_registry_file (Some empty_registry_text)
                         (add_stdout MsgPrompt w)))).
  { unfold register. unfold bind at 1, listdir at 1. rewrite Hl.
    unfold bind at 1, input at 1. rewrite Hi, Hp, Hd. reflexivity. }
  rewrite Hrun. cbn [snd stdout events add_stdout set_registry_file].
  rewrite <- app_assoc. repeat split.
Qed.

(** X14 on a folder of notes, the user typing a comma and blanks. *)
Lemma register_empty_project_witness :
  py_sources [pystr "notes.txt"; pystr "py"] = [] /\
  parse_deps (pystr " , ") = [] /\
  register (pystr "docs")
    (mkWorld (fun _ => Some [pystr "notes.txt"; pystr "py"]) (Some (pystr " , "))
       (fun _ _ => None) (fun _ _ => 0%Z) (fun _ _ => None) None [] [])
  = (Ok tt,
     add_stdout MsgRegistered
       (set_registry_file (Some empty_registry_text)
          (add_stdout MsgPrompt
             (mkWorld (fun _ => Some [pystr "notes.txt"; pystr "py"])
                (Some (pystr " , "))
                (fun _ _ => None) (fun _ _ => 0%Z) (fun _ _ => None) None [] [])))).
Proof.
  split; [reflexivity|]. split; [reflexivity|].
  exact (proj1 (register_empty_project
                  (mkWorld (fun _ => Some [pystr "notes.txt"; pystr "py"])
                     (Some (pystr " , "))
                     (fun _ _ => None) (fun _ _ => 0%Z) (fun _ _ => None) None [] [])
                  (pystr "docs") [pystr "notes.txt"; pystr "py"] (pystr " , ")
                  eq_refl eq_refl eq_refl eq_refl)).
Defined.

(** ** The command line, end to end *)

(** X15: each documented invocation reaches its function.  For a value
    word [v] that is not empty, [--register --folder v] (in either order)
    runs [register v], [--compile v] runs [compile_file v], [--debug v] runs
    [debug v]; a bare [--debug] runs [debug] over all files, [--list] runs
    [list_files] and an empty command line prints the help. *)
Theorem main_routes v :
  classify v = Value ->
  v <> [] ->
  main [pystr "--register"; pystr "--folder"; v] = Some (register v) /\
  main [pystr "--folder"; v; pystr "--register"] = Some (register v) /\
  main [pystr "--compile"; v] = Some (compile_file v) /\
  main [pystr "--debug"; v] = Some (debug (Some v)) /\
  main [pystr "--debug"] = Some (debug None) /\
  main [pystr "--list"] = Some list_files /\
  main [] = Some (print MsgHelp).
Proof.
  intros Hv Hne.
  assert (Ht : truthy v = true) by (destruct v; [congruence|reflexivity]).
  unfold main, parse_args.
  change (parse_loop empty_namespace false [pystr "--register"; pystr "--folder"; v])
    with (match classify v with
          | Value => parse_loop (with_folder v (with_register empty_namespace)) false []
          | Opt _ _ => Some ArgsError
          | Unmodelled => None
          end).
  change (parse_loop empty_namespace false [pystr "--folder"; v; pystr "--register"])
    with (match classify v with
          | Value => parse_loop (with_folder v empty_namespace) false [pystr "--register"]
          | Opt _ _ => Some ArgsError
          | Unmodelled => None
          end).
  change (parse_loop empty_namespace false [pystr "--compile"; v])
    with (match classify v with
          | Value => parse_loop (with_compile v empty_namespace) false []
          | Opt _ _ => Some ArgsError
          | Unmodelled => None
          end).
  change (parse_loop empty_namespace false [pystr "--debug"; v])
    with (match classify v with
          | Value => parse_loop (with_debug (DebugStr v) empty_namespace) false []
          | Opt _ _ => parse_loop (with_debug DebugTrue empty_namespace) false [v]
          | Unmodelled => None
          end).
  rewrite Hv. cbn [parse_loop option_map main_parsed].
  change (classify (pystr "--register")) with (Opt OptRegister None).
  cbv iota. cbn [parse_loop option_map main_parsed].
  unfold dispatch, select.
  cbn [ns_register ns_folder ns_list ns_debug ns_compile with_folder with_register
       with_compile with_debug empty_namespace debug_truthy].
  rewrite Ht. repeat split.
Qed.

(** X15 for the word [src]. *)
Lemma main_routes_witness :
  classify (pystr "src") = Value /\
  main [pystr "--register"; pystr "--folder"; pystr "src"]
  = Some (register (pystr "src")) /\
  main [pystr "--compile"; pystr "src"] = Some (compile_file (pystr "src")).
Proof.
  split; [reflexivity|].
  destruct (main_routes (pystr "src") eq_refl ltac:(discriminate))
    as (H1 & _ & H3 & _).
  split; [exact H1|exact H3].
Defined.

(** ** Registering, then running *)




(** ** A registry without its [files] entry *)

(** X17: when the registry file holds a JSON object without a [files]
    key, [list_files] prints its header first and then raises a [KeyError];
    [debug] and [compile_file] raise it before printing anything.  None of
    them makes an external call, and the process ends with exit status 1. *)
Theorem registry_without_files w text d dotfile alias :
  registry_file w = Some text ->
  Json.loads text = Some (JObj d) ->
  dict_get REGISTRY_KEY_FILES d = None ->
  list_files w = (Raise KeyError, add_stdout MsgListHeader w) /\
  debug dotfile w = (Raise KeyError, w) /\
  compile_file alias w = (Raise KeyError, w) /\
  events (add_stdout MsgListHeader w) = events w /\
  exit_status (fst (list_files w)) = 1%Z.
Proof.
  intros Hf Hl Hd.
  assert (Hg : getitem (JObj d) REGISTRY_KEY_FILES = Raise KeyError)
    by (cbn [getitem]; now rewrite Hd).
  assert (H1 : list_files w = (Raise KeyError, add_stdout MsgListHeader w)).
  { unfold list_files.
    rewrite (bind_ok _ _ _ _ _ (load_registry_ok w _ _ Hf Hl)).
    unfold bind at 1, print at 1. unfold bind at 1, lift at 1. now rewrite Hg. }
  rewrite H1. split; [reflexivity|]. split; [|split; [|split; reflexivity]].
  - unfold debug.
    rewrite (bind_ok _ _ _ _ _ (load_registry_ok w _ _ Hf Hl)).
    destruct (alias_given dotfile);
      unfold bind at 1, lift at 1; now rewrite Hg.
  - unfold compile_file.
    rewrite (bind_ok _ _ _ _ _ (load_registry_ok w _ _ Hf Hl)).
    unfold bind at 1, lift at 1. now rewrite Hg.
Qed.

(** X17 on a registry file that holds an empty object. *)
Lemma registry_without_files_witness :
  registry_file (set_registry_file (Some (pystr "{}")) fresh_project)
  = Some (pystr "{}") /\
  Json.loads (pystr "{}") = Some (JObj []) /\
  list_files (set_registry_file (Some (pystr "{}")) fresh_project)
  = (Raise KeyError,
     add_stdout MsgListHeader (set_registry_file (Some (pystr "{}")) fresh_project)) /\
  debug None (set_registry_file (Some (pystr "{}")) fresh_project)
  = (Raise KeyError, set_registry_file (Some (pystr "{}")) fresh_project).
Proof.
  split; [reflexivity|]. split; [reflexivity|].
  destruct (registry_without_files
              (set_registry_file (Some (pystr "{}")) fresh_project)
              (pystr "{}") [] None [] eq_refl eq_refl eq_refl)
    as (H1 & H2 & _).
  split; [exact H1|exact H2].
Defined.

(** ** An import that fails for another reason *)

(** X18: when the dependencies before [dep] import without trouble and the
    import of [dep] raises something that is not an [ImportError],
    [ensure_installed] lets it through at once: nothing is printed, no [pip]
    is started, and the dependencies after [dep] are not even imported. *)
Theorem ensure_installed_import_crash before dep after e :
  forall w,
    (forall tr d, In d before -> import_env w tr d = None) ->
    (forall tr, import_env w tr dep = Some e) ->
    is_ImportError e = false ->
    ensure_installed (before ++ dep :: after) w
    = (Raise e,
       fold_left (fun w d => add_event (EvImport d) w) (before ++ [dep]) w) /\
    events (fold_left (fun w d => add_event (EvImport d) w) (before ++ [dep]) w)
    = events w ++ map EvImport (before ++ [dep]) /\
    stdout (fold_left (fun w d => add_event (EvImport d) w) (before ++ [dep]) w)
    = stdout w /\
    registry_file
      (fold_left (fun w d => add_event (EvImport d) w) (before ++ [dep]) w)
    = registry_file w.
Proof.
  induction before as [|b before IH]; intros w Hb Hd He.
  - cbn [app ensure_installed fold_left]. unfold bind, py_import.
    rewrite Hd, He. cbn. repeat split.
  - cbn [app ensure_installed fold_left]. unfold bind at 1, py_import at 1.
    rewrite (Hb (events w) b (or_introl eq_refl)).
    destruct (IH (add_event (EvImport b) w)) as (H1 & H2 & H3 & H4).
    + intros tr d Hin. cbn. apply Hb. now right.
    + intros tr. cbn. apply Hd.
    + exact He.
    + rewrite H1, H2, H3, H4. cbn. rewrite <- app_assoc. repeat split.
Qed.

(** X18 for a module that raises a [RuntimeError] on import. *)
Lemma ensure_installed_import_crash_witness :
  is_ImportError (ExceptionOther (pystr "RuntimeError")) = false /\
  ensure_installed ([pystr "numpy"] ++ pystr "broken" :: [pystr "requests"])
    (mkWorld (fun _ => Some []) (Some [])
       (fun _ d => if str_eqb d (pystr "broken")
                   then Some (ExceptionOther (pystr "RuntimeError")) else None)
       (fun _ _ => 0%Z) (fun _ _ => None) None [] [])
  = (Raise (ExceptionOther (pystr "RuntimeError")),
     fold_left (fun w d => add_event (EvImport d) w)
       ([pystr "numpy"] ++ [pystr "broken"])
       (mkWorld (fun _ => Some []) (Some [])
          (fun _ d => if str_eqb d (pystr "broken")
                      then Some (ExceptionOther (pystr "RuntimeError")) else None)
          (fun _ _ => 0%Z) (fun _ _ => None) None [] [])).
Proof.
  split; [reflexivity|].
  apply (ensure_installed_import_crash [pystr "numpy"] (pystr "broken")
           [pystr "requests"] (ExceptionOther (pystr "RuntimeError"))).
  - intros tr d [<-|[]]. reflexivity.
  - intros tr. reflexivity.
  - reflexivity.
Defined.

(** ** Which entries are sources *)

Lemma startswith_prefix p s :
  startswith p s = true <-> exists t, s = p ++ t.
Proof.
  revert s. induction p as [|x p IH]; intros s.
  - cbn. split; [intros _; now exists s|reflexivity].
  - destruct s as [|y s]; cbn [startswith].
    + split; [discriminate|]. intros [t H]. discriminate.
    + rewrite andb_true_iff, N.eqb_eq, IH. split.
      * intros [-> [t ->]]. now exists t.
      * intros [t [= -> ->]]. split; [reflexivity|now exists t].
Qed.

Lemma endswith_suffix p s :
  endswith p s = true <-> exists t, s = t ++ p.
Proof.
  unfold endswith. rewrite startswith_prefix. split.
  - intros [t H]. exists (rev t).
    rewrite <- (rev_involutive s), H, rev_app_distr. now rewrite rev_involutive.
  - intros [t ->]. exists (rev t). apply rev_app_distr.
Qed.

(** X19: the sources [register] keeps are exactly the entries of the
    listing whose name is some stem, possibly empty, followed by [.py], in
    the order of the listing; every other entry is left out. *)
Theorem py_sources_are_py_names names :
  (forall f, In f (py_sources names) <->
             In f names /\ exists stem, f = stem ++ pystr ".py") /\
  (forall a b, py_sources (a ++ b) = py_sources a ++ py_sources b) /\
  (length (py_sources names) <= length names)%nat.
Proof.
  split; [|split].
  - intros f. unfold py_sources. now rewrite filter_In, endswith_suffix.
  - intros a b. apply filter_app.
  - apply filter_length_le.
Qed.

(** ** Aliases that do not exist *)

(** X20: numbering goes from [.FILE] straight to [.FILE2]: no file is ever
    registered as [.FILE1] or [.FILE0], however many sources the folder
    has. *)
Theorem no_alias_one py_files :
  dict_mem (pystr ".FILE1") (assign_aliases py_files) = false /\
  dict_mem (pystr ".FILE0") (assign_aliases py_files) = false /\
  (py_files <> [] -> dict_mem (pystr ".FILE") (assign_aliases py_files) = true) /\
  ((2 <= length py_files)%nat ->
   dict_mem (pystr ".FILE2") (assign_aliases py_files) = true).
Proof.
  assert (Hno : forall k n, (n < 2)%nat -> k = pystr ".FILE" ++ format_int n ->
                            forall i, alias_key i <> k).
  { intros k n Hn Hk i E. subst k. unfold alias_key in E.
    destruct (Nat.eqb i 0) eqn:Hi.
    - rewrite <- (app_nil_r (pystr ".FILE")) in E at 1.
      apply app_inv_head in E. symmetry in E. now apply format_int_nonempty in E.
    - apply Nat.eqb_neq in Hi. apply app_inv_head, format_int_inj in E. lia. }
  assert (Hmem : forall k, dict_mem k (assign_aliases py_files) = true <->
                           exists i, (i < length py_files)%nat /\ k = alias_key i).
  { intros k. rewrite dict_mem_In, assign_aliases_items. unfold enumerate.
    rewrite keys_alias_items, in_map_iff. split.
    - intros (i & <- & Hin). apply in_seq in Hin. exists i. split; [lia|reflexivity].
    - intros (i & Hlt & ->). exists i. split; [reflexivity|]. apply in_seq. lia. }
  split; [|split; [|split]].
  - apply not_true_is_false. intros H. apply Hmem in H. destruct H as (i & _ & E).
    symmetry in E. revert E.
    apply (Hno (pystr ".FILE1") 1%nat); [lia|reflexivity].
  - apply not_true_is_false. intros H. apply Hmem in H. destruct H as (i & _ & E).
    symmetry in E. revert E.
    apply (Hno (pystr ".FILE0") 0%nat); [lia|reflexivity].
  - intros Hne. apply Hmem. exists 0%nat. split; [|reflexivity].
    destruct py_files; [congruence|cbn; lia].
  - intros Hlen. apply Hmem. exists 1%nat. split; [lia|reflexivity].
Qed.

(** X20 on a folder with two sources. *)
Lemma no_alias_one_witness :
  [pystr "a.py"; pystr "b.py"] <> [] /\
  dict_mem (pystr ".FILE") (assign_aliases [pystr "a.py"; pystr "b.py"]) = true /\
  dict_mem (pystr ".FILE1") (assign_aliases [pystr "a.py"; pystr "b.py"]) = false.
Proof.
  split; [discriminate|].
  destruct (no_alias_one [pystr "a.py"; pystr "b.py"]) as (H1 & _ & H3 & _).
  split; [exact (H3 ltac:(discriminate))|exact H1].
Defined.
